(** * Pext pass module: the prompt-continuation controller

    A shallow embedding of [src/__init__.py] (class [Module]): the
    multi-step prompt flow driven by [process_response], the operations
    [_add_otp], [_copy], [_edit], [_generate], [_init], [_insert],
    [_remove], [_rename], and the selection handler [selection_made].

    Conventions of the embedding:
    - a Python [str] is a [string] whose characters are code points below
      256 (one character per code point);
    - a Python value that can be [None], a string, a boolean or an integer
      is a [value];
    - a method is a function [state -> outcome A * state]: it returns or
      raises, and leaves the state it reached;
    - the password store, the file system, the OTP library and the message
      catalogue are the fields of an [Env]; every call to the store or the
      file system is recorded, with its arguments, in the [calls] of the
      state. *)

From Stdlib Require Import ZArith Lia Bool Ascii String Sorted.
From stdpp Require Import base strings list gmap pretty.

Open Scope string_scope.
Open Scope list_scope.

(** ** Python strings *)

Module Py.

(** Code point of a character. *)
Definition ord (c : ascii) : N := Ascii.N_of_ascii c.

Definition in_range (lo hi : N) (c : ascii) : bool :=
  (N.leb lo (ord c) && N.leb (ord c) hi)%bool.

(** [str.isspace] on one character: TAB..CR, FS..US, SPACE, NEL, NBSP. *)
Definition isspace (c : ascii) : bool :=
  (in_range 9 13 c || in_range 28 32 c
   || N.eqb (ord c) 133 || N.eqb (ord c) 160)%bool.

Definition is_empty (s : string) : bool :=
  match s with EmptyString => true | String _ _ => false end.

(** A word followed by more words, the empty word left out. *)
Definition cons_word (p : string * list string) : list string :=
  if is_empty (fst p) then snd p else fst p :: snd p.

(** The word that starts at the head of [s] (empty when [s] starts with
    white space) and the words after it. *)
Fixpoint split_go (s : string) : string * list string :=
  match s with
  | EmptyString => (EmptyString, [])
  | String c r =>
      let p := split_go r in
      if isspace c then (EmptyString, cons_word p)
      else (String c (fst p), snd p)
  end.

(** [s.split()]: the maximal runs of characters that are not white space. *)
Definition split (s : string) : list string := cons_word (split_go s).

(** [sep.join(l)]. *)
Fixpoint join (sep : string) (l : list string) : string :=
  match l with
  | [] => EmptyString
  | [w] => w
  | w :: ws => w +:+ sep +:+ join sep ws
  end.

(** [s.rstrip()]. *)
Fixpoint rstrip (s : string) : string :=
  match s with
  | EmptyString => EmptyString
  | String c r =>
      let r' := rstrip r in
      if (is_empty r' && isspace c)%bool then EmptyString else String c r'
  end.

(** Line boundaries of [str.splitlines]: LF, VT, FF, CR, FS, GS, RS, NEL. *)
Definition is_linebreak (c : ascii) : bool :=
  (in_range 10 13 c || in_range 28 30 c || N.eqb (ord c) 133)%bool.

Definition is_cr (c : ascii) : bool := N.eqb (ord c) 13.
Definition is_lf (c : ascii) : bool := N.eqb (ord c) 10.

(** Put a character in front of the first line of a list of lines. *)
Definition push_char (c : ascii) (ls : list string) : list string :=
  match ls with
  | [] => [String c EmptyString]
  | l :: ls' => String c l :: ls'
  end.

(** [s.splitlines()]: CR LF is one boundary, and a final boundary opens no
    empty last line. *)
Fixpoint splitlines (s : string) : list string :=
  match s with
  | EmptyString => []
  | String c r =>
      if is_linebreak c then
        match r with
        | String c' r' =>
            if (is_cr c && is_lf c')%bool then EmptyString :: splitlines r'
            else EmptyString :: splitlines r
        | EmptyString => [EmptyString]
        end
      else push_char c (splitlines r)
  end.

(** [s] without the prefix [p], when it has it. *)
Fixpoint strip_prefix (p s : string) : option string :=
  match p with
  | EmptyString => Some s
  | String a p' =>
      match s with
      | String b s' => if Ascii.eqb a b then strip_prefix p' s' else None
      | EmptyString => None
      end
  end.

(** The parts around the first occurrence of [sep] in [s]. *)
Fixpoint partition (sep s : string) : option (string * string) :=
  match strip_prefix sep s with
  | Some rest => Some (EmptyString, rest)
  | None =>
      match s with
      | EmptyString => None
      | String c r =>
          match partition sep r with
          | Some (a, b) => Some (String c a, b)
          | None => None
          end
      end
  end.

(** [s.split(sep, 1)] for a non-empty [sep]. *)
Definition split1 (sep s : string) : list string :=
  match partition sep s with
  | Some (a, b) => [a; b]
  | None => [s]
  end.

(** [os.path.join(a, b)] of [posixpath]. *)
Definition ends_with_slash (s : string) : bool :=
  match String.rev s with
  | String c _ => Ascii.eqb c "/"
  | EmptyString => false
  end.

Definition starts_with_slash (s : string) : bool :=
  match s with
  | String c _ => Ascii.eqb c "/"
  | EmptyString => false
  end.

Definition path_join (a b : string) : string :=
  if starts_with_slash b then b
  else if (is_empty a || ends_with_slash a)%bool then a +:+ b
  else a +:+ "/" +:+ b.

(** *** [int(s)] on a string

    CPython first maps the string to ASCII: a character below 127 is kept,
    a white-space character above becomes a space, any other character
    makes the conversion fail. Leading and trailing characters of the C
    class [isspace] are skipped, a sign may follow, then decimal digits
    with single underscores between them. *)

Definition c_isspace (c : ascii) : bool :=
  (in_range 9 13 c || N.eqb (ord c) 32)%bool.

Definition is_digit (c : ascii) : bool := in_range 48 57 c.

Definition digit_value (c : ascii) : Z := Z.of_N (ord c) - 48.

Definition to_ascii_char (c : ascii) : option ascii :=
  if N.ltb (ord c) 127 then Some c
  else if isspace c then Some " "%char
  else None.

Fixpoint to_ascii (s : string) : option string :=
  match s with
  | EmptyString => Some EmptyString
  | String c r =>
      match to_ascii_char c, to_ascii r with
      | Some c', Some r' => Some (String c' r')
      | _, _ => None
      end
  end.

Fixpoint skip_space (s : string) : string :=
  match s with
  | String c r => if c_isspace c then skip_space r else s
  | EmptyString => EmptyString
  end.

Definition starts_with_digit (s : string) : bool :=
  match s with
  | String c _ => is_digit c
  | EmptyString => false
  end.

(** The run of digits and underscores at the head of [s]: its value and
    what follows it, or [None] when an underscore does not stand between
    two digits. *)
Fixpoint digit_run (acc : Z) (after_digit : bool) (s : string)
  : option (Z * string) :=
  match s with
  | EmptyString => Some (acc, EmptyString)
  | String c r =>
      if is_digit c then digit_run (10 * acc + digit_value c) true r
      else if Ascii.eqb c "_" then
        if (after_digit && starts_with_digit r)%bool
        then digit_run acc false r
        else None
      else Some (acc, s)
  end.

Definition unsigned_of_str (s : string) : option Z :=
  if starts_with_digit s then
    match digit_run 0 false s with
    | Some (n, rest) => if is_empty (skip_space rest) then Some n else None
    | None => None
    end
  else None.

Definition int_of_ascii (s : string) : option Z :=
  match skip_space s with
  | String c r =>
      if Ascii.eqb c "-" then Z.opp <$> unsigned_of_str r
      else if Ascii.eqb c "+" then unsigned_of_str r
      else unsigned_of_str (String c r)
  | EmptyString => None
  end.

(** [int(s)]: [None] stands for [ValueError]. *)
Definition int_of_str (s : string) : option Z :=
  match to_ascii s with
  | Some t => int_of_ascii t
  | None => None
  end.

(** *** [re.sub] of the escape-sequence pattern of [init]

    [ANSIEscapeRegex] is [(\x9B|\x1B\[)[0-?]*[ -\/]*[@-~]]: CSI or ESC [,
    parameter characters, intermediate characters, one final character.
    The three classes are disjoint, so the greedy match never backtracks. *)

Fixpoint skip_while (p : ascii -> bool) (s : string) : string :=
  match s with
  | String c r => if p c then skip_while p r else s
  | EmptyString => EmptyString
  end.

Definition csi_introducer (s : string) : option string :=
  match s with
  | String c r =>
      if N.eqb (ord c) 155 then Some r
      else if N.eqb (ord c) 27 then
        match r with
        | String c' r' => if Ascii.eqb c' "[" then Some r' else None
        | EmptyString => None
        end
      else None
  | EmptyString => None
  end.

(** What follows a match of the pattern at the head of [s]. *)
Definition match_escape (s : string) : option string :=
  match csi_introducer s with
  | Some r =>
      match skip_while (in_range 32 47) (skip_while (in_range 48 63) r) with
      | String c r' => if in_range 64 126 c then Some r' else None
      | EmptyString => None
      end
  | None => None
  end.

Fixpoint sub_escape (fuel : nat) (s : string) : string :=
  match fuel with
  | O => s
  | S fuel' =>
      match match_escape s with
      | Some r => sub_escape fuel' r
      | None =>
          match s with
          | String c r => String c (sub_escape fuel' r)
          | EmptyString => EmptyString
          end
      end
  end.

(** [self.ANSIEscapeRegex.sub('', s)]; every step consumes a character, so
    the length of [s] is fuel enough. *)
Definition ANSIEscapeRegex_sub (s : string) : string :=
  sub_escape (String.length s) s.

End Py.

(** [html.escape(s)]. *)
Fixpoint html_escape (s : string) : string :=
  match s with
  | EmptyString => EmptyString
  | String c r =>
      let r' := html_escape r in
      if Ascii.eqb c "&" then "&amp;" +:+ r'
      else if Ascii.eqb c "<" then "&lt;" +:+ r'
      else if Ascii.eqb c ">" then "&gt;" +:+ r'
      else if Ascii.eqb c "034" then "&quot;" +:+ r'
      else if Ascii.eqb c "'" then "&#x27;" +:+ r'
      else String c r'
  end.

(** [a < b] on lists of integers (lexicographic). *)
Fixpoint list_lt (a b : list Z) : bool :=
  match a, b with
  | _, [] => false
  | [], _ :: _ => true
  | x :: a', y :: b' =>
      if Z.ltb x y then true else if Z.ltb y x then false else list_lt a' b'
  end.

(** ** Values, exceptions, host actions *)

Inductive value : Type :=
| VNone
| VStr (s : string)
| VBool (b : bool)
| VInt (z : Z).

(** [bool(v)]. *)
Definition truthy (v : value) : bool :=
  match v with
  | VNone => false
  | VStr s => negb (Py.is_empty s)
  | VBool b => b
  | VInt z => negb (Z.eqb z 0)
  end.

Definition is_None (v : value) : bool :=
  match v with VNone => true | _ => false end.

(** [v == s] for a string literal [s]. *)
Definition eq_str (v : value) (s : string) : bool :=
  match v with VStr x => String.eqb x s | _ => false end.

(** [str(v)], what [format] puts in place of a brace pair. *)
Definition py_str (v : value) : string :=
  match v with
  | VNone => "None"
  | VStr s => s
  | VBool true => "True"
  | VBool false => "False"
  | VInt z => pretty z
  end.

Definition of_option (o : option string) : value :=
  match o with Some s => VStr s | None => VNone end.

Inductive exn : Type :=
| ValueError
| TypeError
| IndexError
| KeyError
| SameFileError
| OSError
| OtherError (what : string).

Inductive outcome (A : Type) : Type :=
| Ret (a : A)
| Raise (e : exn).
Arguments Ret {A} a.
Arguments Raise {A} e.

(** [int(v)]. *)
Definition py_int (v : value) : outcome Z :=
  match v with
  | VNone => Raise TypeError
  | VStr s =>
      match Py.int_of_str s with Some z => Ret z | None => Raise ValueError end
  | VBool b => Ret (if b then 1 else 0)%Z
  | VInt z => Ret z
  end.

Inductive SelectionType : Type := sel_none | sel_entry | sel_command.

Definition SelectionType_eqb (a b : SelectionType) : bool :=
  match a, b with
  | sel_none, sel_none | sel_entry, sel_entry | sel_command, sel_command => true
  | _, _ => false
  end.

(** One frame of the navigation path the host passes to [selection_made]. *)
Record frame : Type := {
  ftype : SelectionType;
  fvalue : string;
  context_option : value
}.

(** The messages put on the queue [q]; the last argument of the four
    [ask_] actions is the continuation identifier. *)
Inductive action : Type :=
| critical_error (message : string)
| set_base_context (options : list string)
| add_entry (entry : string)
| set_entry_info (entry info : string)
| set_entry_context (entry : string) (options : list string)
| ask_input (prompt : string) (prefill : value) (identifier : string)
| ask_input_multi_line (prompt : string) (prefill : value) (identifier : string)
| ask_choice (prompt : string) (choices : list string) (identifier : string)
| ask_question (prompt : string) (identifier : string)
| set_selection (selection : list frame)
| set_header
| replace_command_list (commands : list string)
| replace_entry_list (entries : list string)
| copy_to_clipboard (text : string)
| close.

Definition ask_identifier (a : action) : option string :=
  match a with
  | ask_input _ _ i | ask_input_multi_line _ _ i
  | ask_choice _ _ i | ask_question _ i => Some i
  | _ => None
  end.

Definition is_ask (a : action) : bool :=
  match ask_identifier a with Some _ => true | None => false end.

(** The calls to the password store and to the file system. *)
Inductive call : Type :=
| get_decrypted_password_call (name : value)
| insert_password_call (name content : value)
| generate_password_call (name : value) (length : Z)
| init_call (gpg_id : value)
| get_passwords_list_call
| getatime_call (path : string)
| getmtime_call (path : string)
| copyfile_call (src dst : string)
| remove_call (path : string)
| rename_call (src dst : string).

(** ** The collaborators

    [W] is the state of everything outside the module: store, file
    system, clock. [message m args] is [_(m).format( *args)], taken from a
    well-formed catalogue. [copyfile] is the copy proper: [shutil.copyfile]
    first raises [SameFileError] when [samefile] holds. *)
Record Env : Type := {
  W : Type;
  OTP : Type;
  data_location : string;
  api_version : list Z;
  message : string -> list string -> string;
  repr_selection : list frame -> string;
  get_decrypted_password : value -> W -> outcome (option string) * W;
  insert_password : value -> value -> W -> outcome unit * W;
  generate_password : value -> Z -> W -> outcome string * W;
  store_init : value -> W -> outcome unit * W;
  get_passwords_list : W -> outcome (list string) * W;
  getatime : string -> W -> outcome Z * W;
  getmtime : string -> W -> outcome Z * W;
  format_datetime : Z -> string;
  samefile : string -> string -> W -> bool;
  copyfile : string -> string -> W -> outcome unit * W;
  os_remove : string -> W -> outcome unit * W;
  os_rename : string -> string -> W -> outcome unit * W;
  parse_uri : string -> outcome OTP;
  is_TOTP : OTP -> bool;
  totp_now : OTP -> W -> outcome string * W;
  generate_otp : OTP -> W -> outcome string * W;
  totp_provisioning_uri : value -> outcome string;
  hotp_provisioning_uri : value -> outcome string
}.

(** ** The module's state and its methods *)

Record state (E : Env) : Type := mkState {
  world : W E;
  calls : list call;
  q : list action;
  passwordEntries : gmap string string
}.
Arguments mkState {E} _ _ _ _.
Arguments world {E} _.
Arguments calls {E} _.
Arguments q {E} _.
Arguments passwordEntries {E} _.

Definition M (E : Env) (A : Type) : Type := state E -> outcome A * state E.

Definition ret {E A} (a : A) : M E A := fun st => (Ret a, st).

Definition raise {E A} (e : exn) : M E A := fun st => (Raise e, st).

Definition bind {E A B} (m : M E A) (k : A -> M E B) : M E B :=
  fun st =>
    match m st with
    | (Ret a, st') => k a st'
    | (Raise e, st') => (Raise e, st')
    end.

Notation "'let*' x ':=' m 'in' k" := (bind m (fun x => k))
  (at level 10, x name, m at level 100, k at level 200).
Notation "m ;; k" := (bind m (fun _ => k))
  (at level 100, k at level 200, right associativity).

(** A pure library call that may raise. *)
Definition lift {E A} (o : outcome A) : M E A := fun st => (o, st).

(** [self.q.put(a)]. *)
Definition put {E} (a : action) : M E unit :=
  fun st => (Ret tt, mkState (world st) (calls st) (q st ++ [a]) (passwordEntries st)).

(** [self.passwordEntries = m]. *)
Definition set_passwordEntries {E} (m : gmap string string) : M E unit :=
  fun st => (Ret tt, mkState (world st) (calls st) (q st) m).

Definition get_passwordEntries {E} : M E (gmap string string) :=
  fun st => (Ret (passwordEntries st), st).

(** A call [c] to a collaborator [f]: recorded, then answered by [f]. *)
Definition perform {E A} (c : call) (f : W E -> outcome A * W E) : M E A :=
  fun st =>
    let (r, w) := f (world st) in
    (r, mkState w (calls st ++ [c]) (q st) (passwordEntries st)).

(** [s[n:]]. *)
Fixpoint str_drop (n : nat) (s : string) : string :=
  match n, s with
  | O, _ => s
  | S n', String _ r => str_drop n' r
  | S _, EmptyString => EmptyString
  end.

(** [sorted(l, key=..., reverse=True)] on entries paired with their keys:
    larger keys first, equal keys in their original order. *)
Fixpoint insert_desc (x : Z * string) (l : list (Z * string)) : list (Z * string) :=
  match l with
  | [] => [x]
  | y :: l' => if Z.ltb (fst x) (fst y) then y :: insert_desc x l' else x :: l
  end.

Definition sorted_desc (l : list (Z * string)) : list (Z * string) :=
  foldr insert_desc [] l.

Section Controller.

Context (E : Env).

Fixpoint for_each {A} (l : list A) (body : A -> M E unit) : M E unit :=
  match l with
  | [] => ret tt
  | x :: l' => body x ;; for_each l' body
  end.

Fixpoint map_m {A B} (f : A -> M E B) (l : list A) : M E (list B) :=
  match l with
  | [] => ret []
  | x :: l' => let* y := f x in let* ys := map_m f l' in ret (y :: ys)
  end.

(** [_(m)]. *)
Definition tr (m : string) : string := message E m [].

Definition _get_data_location : string := data_location E.

(** [os.path.join(self._get_data_location(), "{}.gpg".format(name))]. *)
Definition gpg_file (name : value) : string :=
  Py.path_join _get_data_location (py_str name +:+ ".gpg").

(** [shutil.copyfile(src, dst)]. *)
Definition shutil_copyfile (src dst : string) : M E unit :=
  perform (copyfile_call src dst)
    (fun w => if samefile E src dst w then (Raise SameFileError, w)
              else copyfile E src dst w).

Definition atime_key (password : string) : M E (Z * string) :=
  let* t := perform (getatime_call (password +:+ ".gpg"))
                    (getatime E (password +:+ ".gpg")) in
  ret (t, password).

Definition entry_context : list string :=
  if list_lt (api_version E) [0; 12; 0]%Z
  then [tr "Open"; tr "Edit"; tr "Copy"; tr "Rename"; tr "Remove"]
  else [tr "Open"; tr "Edit"; tr "Copy"; tr "Rename"; tr "Add OTP"].

Definition _get_entries : M E unit :=
  let* passwords := perform get_passwords_list_call (get_passwords_list E) in
  let* keyed := map_m atime_key passwords in
  for_each (map snd (sorted_desc keyed)) (fun password =>
    let entry_path := password +:+ ".gpg" in
    let entry := str_drop (String.length _get_data_location) password in
    put (add_entry entry) ;;
    let* atime := perform (getatime_call entry_path) (getatime E entry_path) in
    let* mtime := perform (getmtime_call entry_path) (getmtime E entry_path) in
    put (set_entry_info entry
           (message E "<b>{}</b><br/><br/><b>Last opened</b><br/>{}<br/><br/><b>Last modified</b><br/>{}"
              [html_escape entry; format_datetime E atime; format_datetime E mtime])) ;;
    put (set_entry_context entry entry_context)).

Definition _add_otp (name otp_type secret : value) : M E unit :=
  if negb (truthy name) then
    put (ask_input (tr "Add OTP to which password?") (VStr "") "add_otp")
  else if negb (truthy otp_type) then
    put (ask_choice (tr "Use which OTP type?") ["TOTP"; "HOTP"]
           ("add_otp " +:+ py_str name))
  else if negb (truthy secret) then
    put (ask_input (tr "What is the OTP secret?") (VStr "")
           ("add_otp " +:+ py_str name +:+ " " +:+ py_str otp_type))
  else
    let* otp_uri :=
      if eq_str otp_type "TOTP" then
        let* u := lift (totp_provisioning_uri E secret) in ret (Some u)
      else if eq_str otp_type "HOTP" then
        let* u := lift (hotp_provisioning_uri E secret) in ret (Some u)
      else ret None in
    match otp_uri with
    | None => ret tt
    | Some otp_uri =>
        let* current_data :=
          perform (get_decrypted_password_call name) (get_decrypted_password E name) in
        let content :=
          VStr (py_str (of_option current_data) +:+ String "010" otp_uri) in
        perform (insert_password_call name content) (insert_password E name content)
    end.

Definition _copy (name copy_name : value) : M E unit :=
  if negb (truthy name) then
    put (ask_input (tr "Copy which password?") (VStr "") "copy")
  else if negb (truthy copy_name) then
    put (ask_input (message E "What should the copy of {} be named?" [py_str name])
           name ("copy " +:+ py_str name))
  else
    fun st =>
      match shutil_copyfile (gpg_file name) (gpg_file copy_name) st with
      | (Raise SameFileError, st') =>
          put (ask_input (message E "What should the copy of {} be named?" [py_str name])
                 name ("copy " +:+ py_str name)) st'
      | (Raise e, st') => (Raise e, st')
      | (Ret _, st') => put (set_selection []) st'
      end.

Definition _edit (name value : value) : M E unit :=
  if negb (truthy name) then
    put (ask_input (tr "What is the name of the password to edit?") (VStr "") "edit")
  else if negb (truthy value) then
    let* current_data :=
      perform (get_decrypted_password_call name) (get_decrypted_password E name) in
    put (ask_input_multi_line (message E "What should the value of {} be?" [py_str name])
           (of_option current_data) ("edit " +:+ py_str name))
  else
    perform (insert_password_call name value) (insert_password E name value) ;;
    put (set_selection []).

Definition _init (gpg_id : value) : M E unit :=
  if negb (truthy gpg_id) then
    put (ask_input (tr "Please provide a GPG ID to initialize this directory with.")
           (VStr "") "init")
  else
    perform (init_call gpg_id) (store_init E gpg_id) ;;
    put (set_selection []).

Definition _insert (name value : value) : M E unit :=
  if negb (truthy name) then
    put (ask_input (tr "What is the name of the password?") (VStr "") "insert")
  else if negb (truthy value) then
    put (ask_input_multi_line (message E "What should the value of {} be?" [py_str name])
           (VStr "") ("insert " +:+ py_str name))
  else
    perform (insert_password_call name value) (insert_password E name value) ;;
    put (set_selection []).

Definition _generate (name length : value) : M E unit :=
  if negb (truthy name) then
    put (ask_input (tr "Generate a random password under which name?") (VStr "") "generate")
  else if negb (truthy length) then
    put (ask_input (tr "How many characters long should the password be?") (VStr "15")
           ("generate " +:+ py_str name))
  else
    let* n := lift (py_int length) in
    let* password := perform (generate_password_call name n) (generate_password E name n) in
    _insert name (VStr password).

Definition _remove (name confirmed : value) : M E unit :=
  if negb (truthy name) then
    put (ask_input (tr "Remove which password?") (VStr "") "remove")
  else if is_None confirmed then
    put (ask_question (message E "Are you sure you want to remove {}?" [py_str name])
           ("remove " +:+ py_str name))
  else if negb (truthy confirmed) then
    ret tt
  else
    perform (remove_call (gpg_file name)) (os_remove E (gpg_file name)) ;;
    put (set_selection []).

Definition _rename (name new_name : value) : M E unit :=
  if negb (truthy name) then
    put (ask_input (tr "Rename which password?") (VStr "") "rename")
  else if negb (truthy new_name) then
    put (ask_input (message E "What should the new name of {} be?" [py_str name])
           name ("rename " +:+ py_str name))
  else
    perform (rename_call (gpg_file name) (gpg_file new_name))
            (os_rename E (gpg_file name) (gpg_file new_name)) ;;
    put (set_selection []).

(** *** [process_response]

    The body after the early return is a decision tree whose leaves are
    calls; a leaf is named by its source line. [select_leaf] is the tree,
    [run_leaf] the call at each leaf. *)

Inductive leaf : Type :=
| L93 | L95 | L99 | L101 | L104 | L106
| L110 | L112 | L115 | L117
| L121 | L123 | L126 | L128
| L132 | L134 | L137 | L139
| L142 | L144
| L148 | L150 | L153 | L155
| L159 | L161 | L164 | L166
| L170 | L172 | L175 | L177
| L179.

(** The leaves in the [else] of a test [response is not None]. *)
Definition none_leaf (l : leaf) : bool :=
  match l with
  | L95 | L104 | L106 | L112 | L117 | L123 | L128 | L134 | L139 | L144
  | L150 | L155 | L161 | L166 | L172 | L177 => true
  | _ => false
  end.

(** [s in ["TOTP", "HOTP"]]. *)
Definition is_otp_type (s : string) : bool :=
  (String.eqb s "TOTP" || String.eqb s "HOTP")%bool.

(** The tree of lines 90 to 179; [op] is [data[0]], [args] is [data[1:]]. *)
Definition select_leaf (response : value) (op : string) (args : list string) : leaf :=
  if String.eqb op "add_otp" then
    match args with
    | [] => if negb (is_None response) then L93 else L95
    | _ :: _ =>
        if negb (is_None response) then
          if is_otp_type (List.last args "") then L99 else L101
        else
          if is_otp_type (List.last args "") then L104 else L106
    end
  else if String.eqb op "copy" then
    match args with
    | [] => if negb (is_None response) then L110 else L112
    | _ :: _ => if negb (is_None response) then L115 else L117
    end
  else if String.eqb op "edit" then
    match args with
    | [] => if negb (is_None response) then L121 else L123
    | _ :: _ => if negb (is_None response) then L126 else L128
    end
  else if String.eqb op "generate" then
    match args with
    | [] => if negb (is_None response) then L132 else L134
    | _ :: _ => if negb (is_None response) then L137 else L139
    end
  else if String.eqb op "init" then
    if negb (is_None response) then L142 else L144
  else if String.eqb op "insert" then
    match args with
    | [] => if negb (is_None response) then L148 else L150
    | _ :: _ => if negb (is_None response) then L153 else L155
    end
  else if String.eqb op "remove" then
    match args with
    | [] => if negb (is_None response) then L159 else L161
    | _ :: _ => if negb (is_None response) then L164 else L166
    end
  else if String.eqb op "rename" then
    match args with
    | [] => if negb (is_None response) then L170 else L172
    | _ :: _ => if negb (is_None response) then L175 else L177
    end
  else L179.

(** The call at a leaf; [data[-1]] is the last of [args] and [data[1:-1]]
    is [args] without it wherever [data] has more than one element. Line
    104 passes a keyword argument to [str.join], which raises [TypeError]
    before [_add_otp] is entered. *)
Definition run_leaf (l : leaf) (response : value) (op : string) (args : list string)
  : M E unit :=
  let rest := VStr (Py.join " " args) in
  match l with
  | L93 => _add_otp response VNone VNone
  | L95 => _add_otp VNone VNone VNone
  | L99 => _add_otp (VStr (Py.join " " (removelast args)))
                    (VStr (List.last args "")) response
  | L101 => _add_otp rest response VNone
  | L104 => raise TypeError
  | L106 => _add_otp rest VNone VNone
  | L110 => _copy response VNone
  | L112 => _copy VNone VNone
  | L115 => _copy rest response
  | L117 => _copy rest VNone
  | L121 => _edit response VNone
  | L123 => _edit VNone VNone
  | L126 => _edit rest response
  | L128 => _edit rest VNone
  | L132 => _generate response VNone
  | L134 => _generate VNone VNone
  | L137 => _generate rest (if truthy response then response else VInt 15)
  | L139 => _generate rest VNone
  | L142 => _init response
  | L144 => _init VNone
  | L148 => _insert response VNone
  | L150 => _insert VNone VNone
  | L153 => _insert rest response
  | L155 => _insert rest VNone
  | L159 => _remove response VNone
  | L161 => _remove VNone VNone
  | L164 => _remove rest response
  | L166 => _remove rest VNone
  | L170 => _rename response VNone
  | L172 => _rename VNone VNone
  | L175 => _rename rest response
  | L177 => _rename rest VNone
  | L179 => put (critical_error
                   (message E "Unknown request received: {}" [Py.join " " (op :: args)]))
  end.

(** The leaf [process_response] runs, if it gets to one. *)
Definition reached (response : value) (identifier : string) : option leaf :=
  if is_None response then None
  else
    match Py.split identifier with
    | [] => None
    | op :: args => Some (select_leaf response op args)
    end.

Definition process_response (response : value) (identifier : string) : M E unit :=
  if is_None response then ret tt
  else
    match Py.split identifier with
    | [] => raise IndexError
    | op :: args => run_leaf (select_leaf response op args) response op args
    end.

(** *** [selection_made] *)

(** One turn of the loop that evaluates the OTP lines. *)
Definition otp_line (line : string) : M E string :=
  match parse_uri E line with
  | Raise ValueError => ret line
  | Raise e => raise e
  | Ret otp =>
      let* otp_code :=
        (fun st =>
           let (r, w) := (if is_TOTP E otp then totp_now E otp else generate_otp E otp)
                           (world st) in
           (r, mkState w (calls st) (q st) (passwordEntries st))) in
      ret ("OTP: " +:+ otp_code)
  end.

(** One turn of the loop that lists the fields. *)
Definition show_line (line : string) : M E unit :=
  let* entries := get_passwordEntries in
  if Nat.eqb (size entries) 0 then
    set_passwordEntries (<["********" := line]> entries) ;;
    put (add_entry "********")
  else
    set_passwordEntries (<[line := line]> entries) ;;
    put (add_entry line).

(** [self.passwordEntries[key]]. *)
Definition entry_at (key : string) : M E string :=
  let* entries := get_passwordEntries in
  match entries !! key with
  | Some v => ret v
  | None => raise KeyError
  end.

Definition unexpected (selection : list frame) : M E unit :=
  put (critical_error
         (message E "Unexpected selection_made value: {}" [repr_selection E selection])).

Definition open_entry (f : frame) : M E unit :=
  let* results :=
    perform (get_decrypted_password_call (VStr (fvalue f)))
            (get_decrypted_password E (VStr (fvalue f))) in
  match results with
  | None => put (set_selection [])
  | Some results =>
      put (replace_entry_list []) ;;
      put (replace_command_list []) ;;
      let* result_lines := map_m otp_line (Py.splitlines (Py.rstrip results)) in
      match result_lines with
      | [line] =>
          put (copy_to_clipboard line) ;;
          put close
      | _ => for_each result_lines show_line
      end
  end.

Definition selection_made (selection : list frame) : M E unit :=
  match selection with
  | [] =>
      set_passwordEntries ∅ ;;
      put set_header ;;
      put (replace_command_list []) ;;
      put (replace_entry_list []) ;;
      _get_entries
  | f0 :: others =>
      let final := List.last others f0 in
      if SelectionType_eqb (ftype final) sel_none then
        if eq_str (context_option final) (tr "Create") then
          put (set_selection []) ;; _insert VNone VNone
        else if eq_str (context_option final) (tr "Generate") then
          put (set_selection []) ;; _generate VNone VNone
        else unexpected selection
      else
        match others with
        | [] =>
            if SelectionType_eqb (ftype f0) sel_entry then
              if eq_str (context_option f0) (tr "Edit") then
                put (set_selection []) ;; _edit (VStr (fvalue f0)) VNone
              else if eq_str (context_option f0) (tr "Copy") then
                put (set_selection []) ;; _copy (VStr (fvalue f0)) VNone
              else if eq_str (context_option f0) (tr "Rename") then
                put (set_selection []) ;; _rename (VStr (fvalue f0)) VNone
              else if eq_str (context_option f0) (tr "Remove") then
                put (set_selection []) ;; _remove (VStr (fvalue f0)) VNone
              else if eq_str (context_option f0) (tr "Add OTP") then
                put (set_selection []) ;; _add_otp (VStr (fvalue f0)) VNone VNone
              else open_entry f0
            else unexpected selection
        | [f1] =>
            (if String.eqb (fvalue f1) "********" then
               let* text := entry_at "********" in
               put (copy_to_clipboard text)
             else
               let* text := entry_at (fvalue f1) in
               let copyStringParts := Py.split1 ": " text in
               let copyString :=
                 if Nat.ltb 1 (List.length copyStringParts)
                 then nth 1 copyStringParts ""
                 else nth 0 copyStringParts "" in
               put (copy_to_clipboard copyString)) ;;
            set_passwordEntries ∅ ;;
            put close
        | _ :: _ :: _ => unexpected selection
        end
  end.

End Controller.

(** ** Driving an operation through its prompts *)

Inductive operation : Type :=
| op_insert | op_generate | op_edit | op_copy | op_rename | op_remove
| op_init | op_add_otp.

Definition op_name (o : operation) : string :=
  match o with
  | op_insert => "insert"
  | op_generate => "generate"
  | op_edit => "edit"
  | op_copy => "copy"
  | op_rename => "rename"
  | op_remove => "remove"
  | op_init => "init"
  | op_add_otp => "add_otp"
  end.

(** Number of parameters of the method. *)
Definition arity (o : operation) : nat :=
  match o with
  | op_init => 1
  | op_add_otp => 3
  | _ => 2
  end.

(** The method called with the parameters [ps] in its own order, the
    others left at their default [None]. *)
Definition invoke (E : Env) (o : operation) (ps : list value) : M E unit :=
  let p i := nth i ps VNone in
  match o with
  | op_insert => _insert E (p 0) (p 1)
  | op_generate => _generate E (p 0) (p 1)
  | op_edit => _edit E (p 0) (p 1)
  | op_copy => _copy E (p 0) (p 1)
  | op_rename => _rename E (p 0) (p 1)
  | op_remove => _remove E (p 0) (p 1)
  | op_init => _init E (p 0)
  | op_add_otp => _add_otp E (p 0) (p 1) (p 2)
  end.

(** The operation name followed by the parameters known so far, joined by
    single spaces. *)
Definition token (o : operation) (known : list value) : string :=
  Py.join " " (op_name o :: map py_str known).

(** The host delivers the answers one by one, each with the token of the
    question it answers. *)
Fixpoint cycles (E : Env) (o : operation) (known answers : list value) : M E unit :=
  match answers with
  | [] => ret tt
  | a :: answers' =>
      process_response E a (token o known) ;; cycles E o (known ++ [a]) answers'
  end.

Definition stepwise (E : Env) (o : operation) (ps : list value) : M E unit :=
  invoke E o [] ;; cycles E o [] ps.

(** The method called with no parameter, then with one, ..., up to [n]. *)
Fixpoint invocations (E : Env) (o : operation) (ps : list value) (k n : nat)
  : M E unit :=
  match n with
  | O => invoke E o (take k ps)
  | S n' => invoke E o (take k ps) ;; invocations E o ps (S k) n'
  end.

(** A name the token carries unchanged: not empty, its words separated by
    single spaces, nothing before the first or after the last. *)
Definition normalised (n : string) : bool :=
  (negb (Py.is_empty n) && String.eqb (Py.join " " (Py.split n)) n)%bool.

(** The parameter lists on which the prompt flow loses nothing. *)
Definition well_formed (o : operation) (ps : list value) : bool :=
  match o, ps with
  | op_init, [g] => negb (is_None g)
  | op_generate, [VStr n; len] => (normalised n && truthy len)%bool
  | op_add_otp, [VStr n; VStr t; secret] =>
      (normalised n && negb (is_otp_type (List.last (Py.split n) ""))
       && is_otp_type t && negb (is_None secret))%bool
  | (op_insert | op_edit | op_copy | op_rename | op_remove), [VStr n; v] =>
      (normalised n && negb (is_None v))%bool
  | _, _ => false
  end.

(** ** An in-memory environment

    The store is a list of entries, newest first; it serves the examples. *)

Fixpoint assoc (k : string) (l : list (string * string)) : option string :=
  match l with
  | [] => None
  | (k', v) :: l' => if String.eqb k k' then Some v else assoc k l'
  end.

Fixpoint replicate_char (n : nat) (c : ascii) : string :=
  match n with
  | O => EmptyString
  | S n' => String c (replicate_char n' c)
  end.

Definition is_otpauth (line : string) : bool :=
  match Py.strip_prefix "otpauth://" line with Some _ => true | None => false end.

Definition mem_env : Env := {|
  W := list (string * string);
  OTP := string;
  data_location := "/home/u/.password-store/";
  api_version := [0; 12; 0]%Z;
  message := fun m _ => m;
  repr_selection := fun _ => "[...]";
  get_decrypted_password := fun name w => (Ret (assoc (py_str name) w), w);
  insert_password := fun name content w => (Ret tt, (py_str name, py_str content) :: w);
  generate_password := fun _ n w => (Ret (replicate_char (Z.to_nat n) "x"), w);
  store_init := fun _ w => (Ret tt, w);
  get_passwords_list := fun w => (Ret (map (fun e => "/home/u/.password-store/" +:+ fst e) w), w);
  getatime := fun _ w => (Ret 0%Z, w);
  getmtime := fun _ w => (Ret 0%Z, w);
  format_datetime := fun t => pretty t;
  samefile := fun src dst _ => String.eqb src dst;
  copyfile := fun _ _ w => (Ret tt, w);
  os_remove := fun _ w => (Ret tt, w);
  os_rename := fun _ _ w => (Ret tt, w);
  parse_uri := fun line => if is_otpauth line then Ret line else Raise ValueError;
  is_TOTP := fun o =>
    match Py.strip_prefix "otpauth://totp/" o with Some _ => true | None => false end;
  totp_now := fun _ w => (Ret "492039", w);
  generate_otp := fun _ w => (Raise TypeError, w);
  totp_provisioning_uri := fun secret => Ret ("otpauth://totp/Secret?secret=" +:+ py_str secret);
  hotp_provisioning_uri := fun secret => Ret ("otpauth://hotp/Secret?secret=" +:+ py_str secret)
|}.

Definition mem_state (w : list (string * string)) : state mem_env :=
  mkState (E := mem_env) w [] [] ∅.

(** ** Auxiliary definitions of the statements *)

(** The state after [_copy] has asked again for the name of the copy. *)
Definition copy_reprompted (E : Env) (name copy_name : value) (st : state E)
  : state E :=
  mkState (world st)
    (calls st ++ [copyfile_call (gpg_file E name) (gpg_file E copy_name)])
    (q st ++ [ask_input (message E "What should the copy of {} be named?" [py_str name])
                name ("copy " +:+ py_str name)])
    (passwordEntries st).

(** What the second-level branch of [selection_made] copies for the label
    [label] whose cached content is [text]. *)
Definition field_text (label text : string) : string :=
  if String.eqb label "********" then text
  else
    match Py.partition ": " text with
    | Some (_, after) => after
    | None => text
    end.

Definition url_cached : state mem_env :=
  mkState (E := mem_env) [] [] []
    (<["url: https://x" := "url: https://x"]> (<["********" := "pw"]> ∅)).

(** The frame asks for one of the entry's menu operations rather than for
    the entry itself. *)
Definition menu_option (E : Env) (f : frame) : bool :=
  (eq_str (context_option f) (tr E "Edit")
   || eq_str (context_option f) (tr E "Copy")
   || eq_str (context_option f) (tr E "Rename")
   || eq_str (context_option f) (tr E "Remove")
   || eq_str (context_option f) (tr E "Add OTP"))%bool.

(** The state once the entry is decrypted and the two lists are emptied. *)
Definition opened (E : Env) (f : frame) (w : W E) (st : state E) : state E :=
  mkState w
    (calls st ++ [get_decrypted_password_call (VStr (fvalue f))])
    (q st ++ [replace_entry_list []; replace_command_list []])
    (passwordEntries st).

Definition one_line_store : list (string * string) :=
  [("mail", "hunter2" +:+ String "010" "")].

Definition mail_frame : frame :=
  {| ftype := sel_entry; fvalue := "mail"; context_option := VNone |}.

(** ** [init]

    The part of [init] after the set-up of the search path, of the message
    catalogue and of the store object, which decide the fields of [E]: the
    API version gate, the empty cache, the base menu, the listing, and the
    test on the path of the [.gpg-id] file. *)
Definition init (E : Env) : M E unit :=
  if list_lt (api_version E) [0; 11; 1]%Z then
    put (critical_error
           (message E "This module requires at least API version 0.11.1, you are using {}. Please update Pext."
              [Py.join "." (map pretty (api_version E))]))
  else
    set_passwordEntries ∅ ;;
    put (set_base_context [tr E "Create"; tr E "Generate"]) ;;
    _get_entries E ;;
    if Py.is_empty (Py.path_join (data_location E) ".gpg-id")
    then _init E VNone
    else ret tt.

(** The calls that only read. *)
Definition reads_only (c : call) : bool :=
  match c with
  | get_decrypted_password_call _ | get_passwords_list_call
  | getatime_call _ | getmtime_call _ => true
  | _ => false
  end.

(** The calls that write a password into the store. *)
Definition writes_password (c : call) : bool :=
  match c with
  | insert_password_call _ _ => true
  | _ => false
  end.

(** The store root with the separator [os.path.join] puts after it. *)
Definition root_prefix (E : Env) : string :=
  if (Py.is_empty (data_location E) || Py.ends_with_slash (data_location E))%bool
  then data_location E
  else data_location E +:+ "/".


(** The cache after the field loop has run over [lines]. *)
Definition cache_fields (lines : list string) (m : gmap string string)
  : gmap string string :=
  foldl (fun m line => <[line := line]> m) m lines.

(** No character of [s] is white space. *)
Fixpoint no_space (s : string) : bool :=
  match s with
  | EmptyString => true
  | String c r => (negb (Py.isspace c) && no_space r)%bool
  end.

(** [s] holds neither CSI nor ESC. *)
Fixpoint no_introducer (s : string) : bool :=
  match s with
  | EmptyString => true
  | String c r =>
      (negb (N.eqb (Py.ord c) 155) && negb (N.eqb (Py.ord c) 27) && no_introducer r)%bool
  end.

(** A method keeps the relation [R] between the state it starts from and
    the state it leaves, whether it returns or raises. *)
Definition preserves {E A} (R : state E -> state E -> Prop) (m : M E A) : Prop :=
  forall st, R st (snd (m st)).

(** The calls made are all of the kind [P]. *)
Definition calls_within {E} (P : call -> bool) (st st' : state E) : Prop :=
  exists new, calls st' = calls st ++ new /\ forallb P new = true.

(** The entry cache is the same. *)
Definition same_cache {E} (st st' : state E) : Prop :=
  passwordEntries st' = passwordEntries st.

(** A password is written neither empty nor under an empty name. *)
Definition written_ok (c : call) : bool :=
  match c with
  | insert_password_call name content => (truthy name && truthy content)%bool
  | _ => true
  end.

(** Every character of [s] is white space. *)
Fixpoint all_space (s : string) : bool :=
  match s with
  | EmptyString => true
  | String c r => (Py.isspace c && all_space r)%bool
  end.

(** The state after one more action on the queue. *)
Definition with_action {E} (st : state E) (a : action) : state E :=
  mkState (world st) (calls st) (q st ++ [a]) (passwordEntries st).

(** The state after the call [c], which left the world [w]. *)
Definition after_call {E} (st : state E) (c : call) (w : W E) : state E :=
  mkState w (calls st ++ [c]) (q st) (passwordEntries st).

(** ** States and environments of the examples *)

Definition old_host : Env :=
  {| W := W mem_env; OTP := OTP mem_env;
     data_location := data_location mem_env;
     api_version := [0; 9; 12]%Z;
     message := fun m args => m +:+ Py.join "," args;
     repr_selection := repr_selection mem_env;
     get_decrypted_password := get_decrypted_password mem_env;
     insert_password := insert_password mem_env;
     generate_password := generate_password mem_env;
     store_init := store_init mem_env;
     get_passwords_list := get_passwords_list mem_env;
     getatime := getatime mem_env;
     getmtime := getmtime mem_env;
     format_datetime := format_datetime mem_env;
     samefile := samefile mem_env;
     copyfile := copyfile mem_env;
     os_remove := os_remove mem_env;
     os_rename := os_rename mem_env;
     parse_uri := parse_uri mem_env;
     is_TOTP := is_TOTP mem_env;
     totp_now := totp_now mem_env;
     generate_otp := generate_otp mem_env;
     totp_provisioning_uri := totp_provisioning_uri mem_env;
     hotp_provisioning_uri := hotp_provisioning_uri mem_env |}.

Definition two_line_store : list (string * string) :=
  [("mail", "pw" +:+ String "010" "url: https://x")].

Definition stale_state : state mem_env :=
  mkState (E := mem_env) two_line_store [] [] {["old" := "old"]}.

Definition url_frame : frame :=
  {| ftype := sel_entry; fvalue := "url: https://x"; context_option := VNone |}.

Definition fields_state : state mem_env :=
  mkState (E := mem_env) two_line_store [] []
    (cache_fields ["url: https://x"] {["********" := "pw"]}).





(** * Properties *)

Example split_ex1 : Py.split "  copy  a b " = ["copy"; "a"; "b"].
Proof. reflexivity. Qed.

Example split_ex2 : Py.split "" = [].
Proof. reflexivity. Qed.

Example join_ex1 : Py.join " " ["a"; "b"; "c"] = "a b c".
Proof. reflexivity. Qed.

Example rstrip_ex1 :
  Py.rstrip ("pw " +:+ String "010" "x  " +:+ String "010" " ")
  = "pw " +:+ String "010" "x".
Proof. reflexivity. Qed.

Example splitlines_ex1 :
  Py.splitlines ("a" +:+ String "013" (String "010" "b") +:+ String "010" ""
                 +:+ String "010" "c" +:+ String "010" "")
  = ["a"; "b"; ""; "c"].
Proof. reflexivity. Qed.

Example split1_ex1 : Py.split1 ": " "url: http: //x" = ["url"; "http: //x"].
Proof. reflexivity. Qed.

Example split1_ex2 : Py.split1 ": " "secret:x" = ["secret:x"].
Proof. reflexivity. Qed.

Example path_join_ex1 : Py.path_join "/home/u/.password-store/" "mail.gpg"
                        = "/home/u/.password-store/mail.gpg".
Proof. reflexivity. Qed.

Example path_join_ex2 : Py.path_join "/store" "/etc/x.gpg" = "/etc/x.gpg".
Proof. reflexivity. Qed.

Example int_ex1 : Py.int_of_str " 1_000 " = Some 1000%Z.
Proof. reflexivity. Qed.

Example int_ex2 : Py.int_of_str "-15" = Some (-15)%Z.
Proof. reflexivity. Qed.

Example int_ex3 : Py.int_of_str "abc" = None.
Proof. reflexivity. Qed.

Example int_ex4 : Py.int_of_str "1__0" = None.
Proof. reflexivity. Qed.

Example int_ex5 : Py.int_of_str "12a" = None.
Proof. reflexivity. Qed.

Example escape_ex1 :
  Py.ANSIEscapeRegex_sub (String "027" "[1;31msecret" +:+ String "027" "[0m")
  = "secret".
Proof. reflexivity. Qed.

Example escape_ex2 :
  Py.ANSIEscapeRegex_sub (String "027" "[" +:+ String "027" "[mx")
  = String "027" "[x".
Proof. reflexivity. Qed.

Example insert_two_cycles :
  stepwise mem_env op_insert [VStr "mail/work"; VStr "hunter2"] (mem_state [])
  = (Ret tt,
     mkState (E := mem_env) [("mail/work", "hunter2")]
       [insert_password_call (VStr "mail/work") (VStr "hunter2")]
       [ask_input "What is the name of the password?" (VStr "") "insert";
        ask_input_multi_line "What should the value of {} be?" (VStr "") "insert mail/work";
        set_selection []]
       ∅).
Proof. reflexivity. Qed.

(** ** Words and tokens *)

Lemma cons_word_app (w : string) (ws l : list string) :
  Py.cons_word (w, ws ++ l) = Py.cons_word (w, ws) ++ l.
Proof. unfold Py.cons_word; simpl. destruct (Py.is_empty w); reflexivity. Qed.

Lemma split_go_app (a b : string) :
  Py.split_go (a +:+ String " " b)
  = (fst (Py.split_go a), snd (Py.split_go a) ++ Py.split b).
Proof.
  induction a as [|c a IH]; simpl.
  - reflexivity.
  - rewrite IH. destruct (Py.isspace c); simpl.
    + now rewrite cons_word_app.
    + reflexivity.
Qed.

Lemma split_app (a b : string) :
  Py.split (a +:+ String " " b) = Py.split a ++ Py.split b.
Proof.
  unfold Py.split at 1 2. rewrite split_go_app, cons_word_app.
  now destruct (Py.split_go a).
Qed.

Lemma split_go_words (s : string) :
  Forall (fun w => Py.is_empty w = false) (snd (Py.split_go s)).
Proof.
  induction s as [|c s IH]; simpl; [constructor|].
  destruct (Py.isspace c); simpl; [|exact IH].
  unfold Py.cons_word.
  destruct (Py.is_empty (fst (Py.split_go s))) eqn:Hw; [exact IH|].
  constructor; assumption.
Qed.

Lemma split_words (s : string) :
  Forall (fun w => Py.is_empty w = false) (Py.split s).
Proof.
  unfold Py.split, Py.cons_word.
  destruct (Py.is_empty (fst (Py.split_go s))) eqn:Hw.
  - apply split_go_words.
  - constructor; [assumption | apply split_go_words].
Qed.

Lemma join_cons_nonempty (w : string) (ws : list string) :
  Py.is_empty w = false -> Py.is_empty (Py.join " " (w :: ws)) = false.
Proof.
  intros Hw. destruct w as [|c w]; [discriminate|].
  destruct ws; reflexivity.
Qed.

(** The name rebuilt from a token that carries one is never empty. *)
Lemma rest_truthy (identifier op w : string) (ws : list string) :
  Py.split identifier = op :: w :: ws ->
  truthy (VStr (Py.join " " (w :: ws))) = true.
Proof.
  intros Hs. pose proof (split_words identifier) as Hall.
  rewrite Hs in Hall. inversion Hall as [|? ? _ Hrest]; subst.
  inversion Hrest as [|? ? Hw _]; subst.
  unfold truthy. now rewrite join_cons_nonempty.
Qed.

Lemma normalised_spec (n : string) :
  normalised n = true ->
  Py.is_empty n = false /\ Py.join " " (Py.split n) = n /\ Py.split n <> [].
Proof.
  unfold normalised. intros H.
  apply andb_prop in H as [Hne Hj].
  apply negb_true_iff in Hne. apply String.eqb_eq in Hj.
  repeat split; try assumption.
  intros Hnil. rewrite Hnil in Hj. simpl in Hj. subst n. discriminate.
Qed.

(** ** Cancellation and the dead branches of [process_response] *)

(** C2: a [None] response makes [process_response] return at once, for
    every continuation token: no call to the store or the file system is
    made, nothing is put on the queue, and the state is the one it was. *)
Theorem cancel_is_silent (E : Env) (identifier : string) (st : state E) :
  process_response E VNone identifier st = (Ret tt, st).
Proof. reflexivity. Qed.

Lemma select_leaf_not_none (response : value) (op : string) (args : list string) :
  is_None response = false -> none_leaf (select_leaf response op args) = false.
Proof.
  intros Hr. unfold select_leaf. rewrite Hr. simpl negb.
  repeat match goal with
         | |- context [if String.eqb ?a ?b then _ else _] => destruct (String.eqb a b)
         end;
    try (destruct args; [reflexivity|]);
    try reflexivity.
  destruct (is_otp_type _); reflexivity.
Qed.

(** C9: [process_response] never runs a leaf that sits in the [else] of a
    test [response is not None]: the early return has taken every [None]
    response away. Line 104, which would raise [TypeError], is one of those
    leaves. The last part ties [reached] to the method itself. *)
Theorem none_branches_unreachable (E : Env) (response : value) (identifier : string) :
  match reached response identifier with
  | Some l => none_leaf l
  | None => false
  end = false
  /\ none_leaf L104 = true
  /\ (forall r op args (st : state E),
        run_leaf E L104 r op args st = (Raise TypeError, st))
  /\ (forall st : state E,
        process_response E response identifier st
        = match reached response identifier with
          | Some l =>
              run_leaf E l response (hd "" (Py.split identifier))
                       (tl (Py.split identifier)) st
          | None => if is_None response then (Ret tt, st) else (Raise IndexError, st)
          end).
Proof.
  split; [|split; [reflexivity|split; [reflexivity|]]].
  - unfold reached. destruct (is_None response) eqn:Hr; [reflexivity|].
    destruct (Py.split identifier); [reflexivity|].
    now apply select_leaf_not_none.
  - intros st. unfold process_response, reached.
    destruct (is_None response); [reflexivity|].
    destruct (Py.split identifier); reflexivity.
Qed.

(** ** [generate] and its length *)

Lemma process_response_generate (E : Env) (identifier w : string) (ws : list string)
      (response : value) (st : state E) :
  Py.split identifier = "generate" :: w :: ws ->
  is_None response = false ->
  process_response E response identifier st
  = _generate E (VStr (Py.join " " (w :: ws)))
              (if truthy response then response else VInt 15) st.
Proof.
  intros Hs Hr. unfold process_response. rewrite Hr, Hs.
  unfold select_leaf. rewrite Hr. reflexivity.
Qed.

(** C10: the conversion [int(length)] is not guarded. For a token that
    carries a name, an answer that is not empty and that [int] refuses
    (such as [abc]) makes [process_response] raise [ValueError]; nothing
    is put on the queue and no call is made. *)
Theorem generate_int_unguarded (E : Env) (identifier w : string) (ws : list string)
        (answer : string) (st : state E) :
  Py.split identifier = "generate" :: w :: ws ->
  Py.is_empty answer = false ->
  Py.int_of_str answer = None ->
  process_response E (VStr answer) identifier st = (Raise ValueError, st).
Proof.
  intros Hs Hne Hint.
  rewrite (process_response_generate E identifier w ws) by (assumption || reflexivity).
  assert (Ht : truthy (VStr answer) = true) by (unfold truthy; now rewrite Hne).
  rewrite Ht. unfold _generate.
  rewrite (rest_truthy identifier _ w ws Hs), Ht.
  unfold bind, lift, py_int. rewrite Hint. reflexivity.
Qed.

Lemma generate_int_unguarded_witness :
  Py.split "generate mail" = ["generate"; "mail"]
  /\ Py.is_empty "abc" = false
  /\ Py.int_of_str "abc" = None
  /\ process_response mem_env (VStr "abc") "generate mail" (mem_state [])
     = (Raise ValueError, mem_state []).
Proof.
  split; [reflexivity|]. split; [reflexivity|]. split; [reflexivity|].
  apply (generate_int_unguarded mem_env "generate mail" "mail" [] "abc");
    reflexivity.
Defined.

(** C3, as stated, fails on a missing answer: a [None] length answer is a
    cancellation like any other, and [generate_password] is not called. *)
Lemma generate_null_length_cancels :
  process_response mem_env VNone "generate mail" (mem_state [])
  = (Ret tt, mem_state [])
  /\ calls (snd (process_response mem_env VNone "generate mail" (mem_state []))) = [].
Proof. split; reflexivity. Qed.

(** C3, amended: with a name in the token, an empty string as length
    answer is not a cancellation: the length becomes 15, the store's
    [generate_password] is called with the name and 15, and the password
    it returns is inserted; a [None] answer is a cancellation. *)
Theorem generate_empty_length_default (E : Env) (identifier w : string)
        (ws : list string) (st : state E) :
  Py.split identifier = "generate" :: w :: ws ->
  process_response E (VStr "") identifier st
  = (let* password :=
       perform (generate_password_call (VStr (Py.join " " (w :: ws))) 15)
               (generate_password E (VStr (Py.join " " (w :: ws))) 15) in
     _insert E (VStr (Py.join " " (w :: ws))) (VStr password)) st
  /\ process_response E VNone identifier st = (Ret tt, st).
Proof.
  intros Hs. split; [|reflexivity].
  rewrite (process_response_generate E identifier w ws) by (assumption || reflexivity).
  unfold _generate. rewrite (rest_truthy identifier _ w ws Hs).
  reflexivity.
Qed.

Lemma generate_empty_length_default_witness :
  Py.split "generate mail" = ["generate"; "mail"]
  /\ process_response mem_env (VStr "") "generate mail" (mem_state [])
     = (Ret tt,
        mkState (E := mem_env) [("mail", "xxxxxxxxxxxxxxx")]
          [generate_password_call (VStr "mail") 15;
           insert_password_call (VStr "mail") (VStr "xxxxxxxxxxxxxxx")]
          [set_selection []] ∅).
Proof.
  split; [reflexivity|].
  destruct (generate_empty_length_default mem_env "generate mail" "mail" []
              (mem_state []) eq_refl) as [H _].
  rewrite H. reflexivity.
Defined.

(** ** [remove] and [copy] *)

Lemma process_response_remove (E : Env) (identifier w : string) (ws : list string)
      (response : value) (st : state E) :
  Py.split identifier = "remove" :: w :: ws ->
  is_None response = false ->
  process_response E response identifier st
  = _remove E (VStr (Py.join " " (w :: ws))) response st.
Proof.
  intros Hs Hr. unfold process_response. rewrite Hr, Hs.
  unfold select_leaf. rewrite Hr. reflexivity.
Qed.



Lemma process_response_copy (E : Env) (identifier w : string) (ws : list string)
      (response : value) (st : state E) :
  Py.split identifier = "copy" :: w :: ws ->
  is_None response = false ->
  process_response E response identifier st
  = _copy E (VStr (Py.join " " (w :: ws))) response st.
Proof.
  intros Hs Hr. unfold process_response. rewrite Hr, Hs.
  unfold select_leaf. rewrite Hr. reflexivity.
Qed.

(** C7: when both names are given and the source file and the destination
    file are the same file, [shutil.copyfile] is called and refuses: the
    world is left as it was, [_copy] returns without raising, the queue
    gets exactly one more action, an [ask_input] for the name of the copy
    with the token "copy <name>", and no [set_selection]. The same holds
    when the new name arrives as the host's answer. *)
Theorem copy_same_file_reprompts (E : Env) (name copy_name : value) (st : state E) :
  truthy name = true ->
  truthy copy_name = true ->
  samefile E (gpg_file E name) (gpg_file E copy_name) (world st) = true ->
  _copy E name copy_name st = (Ret tt, copy_reprompted E name copy_name st)
  /\ (forall identifier w ws,
        Py.split identifier = "copy" :: w :: ws ->
        name = VStr (Py.join " " (w :: ws)) ->
        process_response E copy_name identifier st
        = (Ret tt, copy_reprompted E name copy_name st)).
Proof.
  intros Hn Hc Hsame.
  assert (Hcopy : _copy E name copy_name st
                  = (Ret tt, copy_reprompted E name copy_name st)).
  { unfold _copy. rewrite Hn, Hc. cbn [negb].
    unfold shutil_copyfile, perform. rewrite Hsame. reflexivity. }
  split; [exact Hcopy|].
  intros identifier w ws Hs Hname.
  rewrite (process_response_copy E identifier w ws); [|assumption|].
  - rewrite <- Hname. exact Hcopy.
  - destruct copy_name; try reflexivity. discriminate.
Qed.

Lemma copy_same_file_reprompts_witness :
  truthy (VStr "mail") = true
  /\ samefile mem_env (gpg_file mem_env (VStr "mail")) (gpg_file mem_env (VStr "mail")) [] = true
  /\ _copy mem_env (VStr "mail") (VStr "mail") (mem_state [])
     = (Ret tt,
        mkState (E := mem_env) []
          [copyfile_call "/home/u/.password-store/mail.gpg" "/home/u/.password-store/mail.gpg"]
          [ask_input "What should the copy of {} be named?" (VStr "mail") "copy mail"]
          ∅).
Proof.
  split; [reflexivity|]. split; [reflexivity|].
  exact (proj1 (copy_same_file_reprompts mem_env (VStr "mail") (VStr "mail")
                  (mem_state []) eq_refl eq_refl eq_refl)).
Defined.

(** ** Opening an entry and copying a field *)

Lemma append_nil (s : string) : "" +:+ s = s.
Proof. reflexivity. Qed.

Lemma append_cons (c : ascii) (a s : string) :
  String c a +:+ s = String c (a +:+ s).
Proof. reflexivity. Qed.

Lemma strip_prefix_spec (p s r : string) :
  Py.strip_prefix p s = Some r <-> s = p +:+ r.
Proof.
  revert s. induction p as [|a p IH]; intros s.
  - rewrite append_nil. simpl. split; [now intros [= ->] | now intros ->].
  - rewrite append_cons. simpl. destruct s as [|b s]; [split; discriminate|].
    destruct (Ascii.eqb_spec a b) as [->|Hab].
    + rewrite IH. split; [now intros -> | now intros [= ->]].
    + split; [discriminate | intros [= -> _]; now destruct Hab].
Qed.

Lemma partition_some (sep s a b : string) :
  Py.partition sep s = Some (a, b) -> s = a +:+ sep +:+ b.
Proof.
  revert a. induction s as [|c s IH]; intros a; simpl.
  - destruct (Py.strip_prefix sep "") eqn:Hp; [|discriminate].
    intros [= <- <-]. rewrite append_nil. now apply strip_prefix_spec in Hp.
  - destruct (Py.strip_prefix sep (String c s)) eqn:Hp.
    + intros [= <- <-]. rewrite append_nil. now apply strip_prefix_spec in Hp.
    + destruct (Py.partition sep s) as [[a' b']|] eqn:Hq; [|discriminate].
      intros [= <- <-]. rewrite append_cons. f_equal. now apply IH.
Qed.

Lemma partition_none (sep s : string) :
  Py.partition sep s = None -> forall a b, s <> a +:+ sep +:+ b.
Proof.
  induction s as [|c s IH]; simpl.
  - destruct (Py.strip_prefix sep "") eqn:Hp; [discriminate|].
    intros _ a b Hs. destruct a.
    + rewrite append_nil in Hs. apply strip_prefix_spec in Hs. congruence.
    + rewrite append_cons in Hs. discriminate.
  - destruct (Py.strip_prefix sep (String c s)) eqn:Hp; [discriminate|].
    destruct (Py.partition sep s) as [[a' b']|] eqn:Hq; [discriminate|].
    intros _ a b Hs. destruct a as [|c' a].
    + rewrite append_nil in Hs. apply strip_prefix_spec in Hs. congruence.
    + rewrite append_cons in Hs. injection Hs as -> Hs. exact (IH eq_refl a b Hs).
Qed.

(** The first [": "] of [a +:+ ": " +:+ b] is the one after [a] when [a]
    holds none. *)
Lemma partition_colon (a b : string) :
  (forall x y, a <> x +:+ ": " +:+ y) ->
  Py.partition ": " (a +:+ ": " +:+ b) = Some (a, b).
Proof.
  induction a as [|c a IH]; intros Hfree.
  - reflexivity.
  - assert (Hfree' : forall x y, a <> x +:+ ": " +:+ y).
    { intros x y ->. apply (Hfree (String c x) y). now rewrite append_cons. }
    rewrite append_cons. cbn [Py.partition].
    destruct (Py.strip_prefix ": " (String c (a +:+ ": " +:+ b))) eqn:Hp.
    + exfalso. apply strip_prefix_spec in Hp.
      rewrite !append_cons, append_nil in Hp. injection Hp as -> Hp.
      destruct a as [|c' a].
      * rewrite append_nil in Hp. discriminate.
      * rewrite append_cons in Hp. injection Hp as -> _.
        apply (Hfree "" a). reflexivity.
    + now rewrite (IH Hfree').
Qed.

Lemma field_copy_run (E : Env) (f0 f1 : frame) (text : string) (st : state E) :
  SelectionType_eqb (ftype f1) sel_none = false ->
  passwordEntries st !! fvalue f1 = Some text ->
  selection_made E [f0; f1] st
  = (Ret tt,
     mkState (world st) (calls st)
       (q st ++ [copy_to_clipboard (field_text (fvalue f1) text); close]) ∅).
Proof.
  intros Hty Hget. unfold selection_made. cbn [List.last]. rewrite Hty.
  unfold field_text, entry_at, get_passwordEntries, bind, put, set_passwordEntries, ret.
  destruct (String.eqb_spec (fvalue f1) "********") as [Heq|Hne].
  - rewrite <- Heq, Hget. cbn. now rewrite <- app_assoc.
  - rewrite Hget. unfold Py.split1.
    destruct (Py.partition ": " text) as [[a b]|]; cbn; now rewrite <- app_assoc.
Qed.

(** C5, as stated, fails for the masked password line: its cached content
    is copied whole even when it holds the separator. *)
Lemma masked_field_copied_whole :
  (selection_made mem_env [{| ftype := sel_entry; fvalue := "mail"; context_option := VNone |}] ;;
   selection_made mem_env
     [{| ftype := sel_entry; fvalue := "mail"; context_option := VNone |};
      {| ftype := sel_entry; fvalue := "********"; context_option := VNone |}])
    (mem_state [("mail", "pin: 1234" +:+ String "010" "url: https://x")])
  = (Ret tt,
     mkState (E := mem_env) [("mail", "pin: 1234" +:+ String "010" "url: https://x")]
       [get_decrypted_password_call (VStr "mail")]
       [replace_entry_list []; replace_command_list [];
        add_entry "********"; add_entry "url: https://x";
        copy_to_clipboard "pin: 1234"; close]
       ∅).
Proof. vm_compute. reflexivity. Qed.

(** C5, amended: for a second-level selection whose label is cached, the
    queue gets one [copy_to_clipboard] and then [close], and the cache is
    emptied. For the mask label the cached content is copied whole. For
    any other label, content that holds [": "] is copied from after its
    first [": "], and content without it is copied whole. *)
Theorem field_copy (E : Env) (f0 f1 : frame) (text : string) (st : state E) :
  SelectionType_eqb (ftype f1) sel_none = false ->
  passwordEntries st !! fvalue f1 = Some text ->
  selection_made E [f0; f1] st
  = (Ret tt,
     mkState (world st) (calls st)
       (q st ++ [copy_to_clipboard (field_text (fvalue f1) text); close]) ∅)
  /\ (fvalue f1 = "********" -> field_text (fvalue f1) text = text)
  /\ (fvalue f1 <> "********" ->
      forall a b, text = a +:+ ": " +:+ b ->
                  (forall x y, a <> x +:+ ": " +:+ y) ->
                  field_text (fvalue f1) text = b)
  /\ (fvalue f1 <> "********" ->
      (forall a b, text <> a +:+ ": " +:+ b) ->
      field_text (fvalue f1) text = text).
Proof.
  intros Hty Hget. split; [now apply field_copy_run|]. unfold field_text.
  split; [|split].
  - intros ->. reflexivity.
  - intros Hne a b -> Hfree.
    apply String.eqb_neq in Hne. rewrite Hne. now rewrite partition_colon.
  - intros Hne Hnone. apply String.eqb_neq in Hne. rewrite Hne.
    destruct (Py.partition ": " text) as [[a b]|] eqn:Hp; [|reflexivity].
    apply partition_some in Hp. now destruct (Hnone a b).
Qed.

Lemma field_copy_witness :
  SelectionType_eqb sel_entry sel_none = false
  /\ passwordEntries url_cached !! "url: https://x" = Some "url: https://x"
  /\ selection_made mem_env
       [{| ftype := sel_entry; fvalue := "mail"; context_option := VNone |};
        {| ftype := sel_entry; fvalue := "url: https://x"; context_option := VNone |}]
       url_cached
     = (Ret tt,
        mkState (E := mem_env) [] []
          [copy_to_clipboard
             (field_text "url: https://x" "url: https://x"); close] ∅).
Proof.
  split; [reflexivity|]. split; [vm_compute; reflexivity|].
  exact (proj1 (field_copy mem_env
                  {| ftype := sel_entry; fvalue := "mail"; context_option := VNone |}
                  {| ftype := sel_entry; fvalue := "url: https://x"; context_option := VNone |}
                  "url: https://x" url_cached eq_refl eq_refl)).
Defined.

Lemma otp_line_frame (E : Env) (line : string) (st st' : state E) (r : outcome string) :
  otp_line E line st = (r, st') ->
  calls st' = calls st /\ q st' = q st /\ passwordEntries st' = passwordEntries st.
Proof.
  unfold otp_line. destruct (parse_uri E line) as [otp|e].
  - unfold bind, ret.
    destruct ((if is_TOTP E otp then totp_now E otp else generate_otp E otp) (world st))
      as [[code|e] w]; intros [= <- <-]; auto.
  - destruct e; unfold ret, raise; intros [= <- <-]; auto.
Qed.

Lemma selection_made_opens (E : Env) (f : frame) (st : state E) :
  SelectionType_eqb (ftype f) sel_entry = true ->
  menu_option E f = false ->
  selection_made E [f] st = open_entry E f st.
Proof.
  intros Hty Hmenu. unfold selection_made. cbn [List.last].
  destruct (ftype f); try discriminate. cbn [SelectionType_eqb].
  unfold menu_option in Hmenu.
  repeat (apply orb_false_elim in Hmenu as [Hmenu ?]).
  now repeat match goal with H : eq_str _ _ = false |- _ => rewrite H; clear H end.
Qed.

(** C6: an entry is selected for itself; its decrypted content, stripped
    on the right, is the one line [raw], and the OTP step turns [raw] into
    [line] (the line itself, or its OTP code). Then [selection_made]
    returns, and what it adds to the queue is, after the two list resets,
    one [copy_to_clipboard] with [line] and then [close]: no [add_entry],
    no question; the entry cache is as it was. *)
Theorem single_line_entry_copied (E : Env) (f : frame) (results raw line : string)
        (w : W E) (st st' : state E) :
  SelectionType_eqb (ftype f) sel_entry = true ->
  menu_option E f = false ->
  get_decrypted_password E (VStr (fvalue f)) (world st) = (Ret (Some results), w) ->
  Py.splitlines (Py.rstrip results) = [raw] ->
  otp_line E raw (opened E f w st) = (Ret line, st') ->
  selection_made E [f] st
  = (Ret tt,
     mkState (world st')
       (calls st ++ [get_decrypted_password_call (VStr (fvalue f))])
       (q st ++ [replace_entry_list []; replace_command_list [];
                 copy_to_clipboard line; close])
       (passwordEntries st)).
Proof.
  intros Hty Hmenu Hdec Hlines Hotp.
  rewrite selection_made_opens by assumption.
  unfold open_entry, bind at 1. unfold perform. rewrite Hdec, Hlines.
  unfold bind at 1. unfold put at 1. cbn [world calls q passwordEntries].
  unfold bind at 1. unfold put at 1. cbn [world calls q passwordEntries].
  rewrite <- app_assoc. cbn [app].
  fold (opened E f w st).
  unfold bind at 1. cbn [map_m]. unfold bind at 1. rewrite Hotp.
  destruct (otp_line_frame E raw _ _ _ Hotp) as (Hc & Hq & He).
  destruct st' as [w' c' q' e']. cbn in Hc, Hq, He. subst c' q' e'.
  unfold bind, ret, put. cbn [world calls q passwordEntries].
  rewrite <- !app_assoc. reflexivity.
Qed.

Lemma single_line_entry_copied_witness :
  menu_option mem_env mail_frame = false
  /\ Py.splitlines (Py.rstrip ("hunter2" +:+ String "010" "")) = ["hunter2"]
  /\ selection_made mem_env [mail_frame] (mem_state one_line_store)
     = (Ret tt,
        mkState (E := mem_env) one_line_store
          [get_decrypted_password_call (VStr "mail")]
          [replace_entry_list []; replace_command_list [];
           copy_to_clipboard "hunter2"; close]
          ∅).
Proof.
  split; [reflexivity|]. split; [reflexivity|].
  exact (single_line_entry_copied mem_env mail_frame
           ("hunter2" +:+ String "010" "") "hunter2" "hunter2"
           one_line_store (mem_state one_line_store)
           (opened mem_env mail_frame one_line_store (mem_state one_line_store))
           eq_refl eq_refl eq_refl eq_refl eq_refl).
Defined.

(** C4: no line of a decrypted entry goes through [ANSIEscapeRegex]. A
    one-line entry that holds two escape sequences is copied with them;
    the pattern would have left [hunter2]. In an entry of several lines
    the escape sequences stay in the label shown, in the cached content
    and in the text copied. *)
Theorem ansi_escape_not_stripped :
  selection_made mem_env
    [{| ftype := sel_entry; fvalue := "mail"; context_option := VNone |}]
    (mem_state [("mail", String "027" "[31mhunter2" +:+ String "027" "[0m")])
  = (Ret tt,
     mkState (E := mem_env)
       [("mail", String "027" "[31mhunter2" +:+ String "027" "[0m")]
       [get_decrypted_password_call (VStr "mail")]
       [replace_entry_list []; replace_command_list [];
        copy_to_clipboard (String "027" "[31mhunter2" +:+ String "027" "[0m");
        close]
       ∅)
  /\ Py.ANSIEscapeRegex_sub (String "027" "[31mhunter2" +:+ String "027" "[0m")
     = "hunter2"
  /\ (selection_made mem_env
        [{| ftype := sel_entry; fvalue := "mail"; context_option := VNone |}] ;;
      selection_made mem_env
        [{| ftype := sel_entry; fvalue := "mail"; context_option := VNone |};
         {| ftype := sel_entry; fvalue := "url: " +:+ String "027" "[1mx";
            context_option := VNone |}])
       (mem_state [("mail", "pw" +:+ String "010" ("url: " +:+ String "027" "[1mx"))])
     = (Ret tt,
        mkState (E := mem_env)
          [("mail", "pw" +:+ String "010" ("url: " +:+ String "027" "[1mx"))]
          [get_decrypted_password_call (VStr "mail")]
          [replace_entry_list []; replace_command_list [];
           add_entry "********"; add_entry ("url: " +:+ String "027" "[1mx");
           copy_to_clipboard (String "027" "[1mx"); close]
          ∅).
Proof. split; [|split]; vm_compute; reflexivity. Qed.

(** ** The prompt flow loses nothing on well-formed parameters *)

Lemma bind_congr_l {E A B} (m m' : M E A) (k : A -> M E B) (st : state E) :
  (forall s, m s = m' s) -> bind m k st = bind m' k st.
Proof. intros H. unfold bind. now rewrite H. Qed.

Lemma bind_congr_r {E A B} (m : M E A) (k k' : A -> M E B) (st : state E) :
  (forall a s, k a s = k' a s) -> bind m k st = bind m k' st.
Proof. intros H. unfold bind. destruct (m st) as [[a|e] s]; [apply H | reflexivity]. Qed.

Lemma bind_ret_tt {E} (m : M E unit) (st : state E) :
  bind m (fun _ => ret tt) st = m st.
Proof. unfold bind, ret. destruct (m st) as [[[]|e] s]; reflexivity. Qed.

Lemma split_op_name (o : operation) : Py.split (op_name o) = [op_name o].
Proof. destruct o; reflexivity. Qed.

Lemma split_token_1 (o : operation) (n : string) :
  Py.split (token o [VStr n]) = op_name o :: Py.split n.
Proof.
  change (token o [VStr n]) with (op_name o +:+ String " " n).
  now rewrite split_app, split_op_name.
Qed.

Lemma split_token_2 (o : operation) (n t : string) :
  Py.split (token o [VStr n; VStr t]) = op_name o :: Py.split n ++ Py.split t.
Proof.
  change (token o [VStr n; VStr t]) with (op_name o +:+ String " " (n +:+ String " " t)).
  now rewrite !split_app, split_op_name.
Qed.

Lemma is_otp_type_spec (t : string) :
  is_otp_type t = true -> t = "TOTP" \/ t = "HOTP".
Proof.
  unfold is_otp_type. intros H. apply orb_prop in H as [H|H];
    apply String.eqb_eq in H; auto.
Qed.

(** A cycle whose token carries the name [n]: the leaf is chosen on the
    words of [n], and the name rebuilt from them is [n]. *)
Lemma cycle_with_name (E : Env) (o : operation) (n : string) (response : value)
      (st : state E) :
  normalised n = true ->
  is_None response = false ->
  exists w ws,
    Py.split n = w :: ws
    /\ Py.join " " (w :: ws) = n
    /\ process_response E response (token o [VStr n]) st
       = run_leaf E (select_leaf response (op_name o) (w :: ws)) response
                  (op_name o) (w :: ws) st.
Proof.
  intros Hn Hr. destruct (normalised_spec n Hn) as (_ & Hj & Hne).
  destruct (Py.split n) as [|w ws] eqn:Hs; [congruence|].
  exists w, ws. repeat split; [assumption|].
  unfold process_response. now rewrite Hr, split_token_1, Hs.
Qed.

Lemma reinvoke_first (E : Env) (o : operation) (p0 : value) (st : state E) :
  is_None p0 = false ->
  process_response E p0 (token o []) st = invoke E o [p0] st.
Proof.
  intros Hr. unfold process_response. rewrite Hr.
  change (token o []) with (op_name o). rewrite split_op_name.
  unfold select_leaf. rewrite Hr. destruct o; reflexivity.
Qed.

Lemma reinvoke_second (E : Env) (o : operation) (n : string) (v : value)
      (st : state E) :
  arity o = 2 ->
  normalised n = true ->
  is_None v = false ->
  (o = op_generate -> truthy v = true) ->
  process_response E v (token o [VStr n]) st = invoke E o [VStr n; v] st.
Proof.
  intros Ho Hn Hr Hgen.
  destruct (cycle_with_name E o n v st Hn Hr) as (w & ws & _ & Hj & ->).
  unfold select_leaf. rewrite Hr.
  destruct o; try discriminate Ho;
    cbn [op_name String.eqb Ascii.eqb Bool.eqb negb run_leaf invoke nth];
    rewrite Hj; try reflexivity.
  now rewrite (Hgen eq_refl).
Qed.

Lemma reinvoke_otp_type (E : Env) (n t : string) (st : state E) :
  normalised n = true ->
  is_otp_type (List.last (Py.split n) "") = false ->
  process_response E (VStr t) (token op_add_otp [VStr n]) st
  = invoke E op_add_otp [VStr n; VStr t] st.
Proof.
  intros Hn Hlast.
  destruct (cycle_with_name E op_add_otp n (VStr t) st Hn eq_refl)
    as (w & ws & Hs & Hj & ->).
  rewrite Hs in Hlast. unfold select_leaf.
  cbn [op_name String.eqb Ascii.eqb Bool.eqb is_None negb]. rewrite Hlast.
  cbn [run_leaf]. now rewrite Hj.
Qed.

Lemma reinvoke_otp_secret (E : Env) (n t : string) (secret : value) (st : state E) :
  normalised n = true ->
  is_otp_type t = true ->
  is_None secret = false ->
  process_response E secret (token op_add_otp [VStr n; VStr t]) st
  = invoke E op_add_otp [VStr n; VStr t; secret] st.
Proof.
  intros Hn Ht Hr.
  destruct (normalised_spec n Hn) as (_ & Hj & Hne).
  destruct (Py.split n) as [|w ws] eqn:Hs; [congruence|].
  assert (Hst : Py.split t = [t])
    by (destruct (is_otp_type_spec t Ht) as [-> | ->]; reflexivity).
  unfold process_response. rewrite Hr, split_token_2, Hs, Hst.
  assert (Hlast : List.last ((w :: ws) ++ [t]) "" = t) by apply last_last.
  assert (Hinit : removelast ((w :: ws) ++ [t]) = w :: ws) by apply removelast_last.
  change ((w :: ws) ++ [t]) with (w :: (ws ++ [t])) in *.
  unfold select_leaf.
  cbn [op_name String.eqb Ascii.eqb Bool.eqb]. rewrite Hr, Hlast, Ht.
  cbn [negb run_leaf]. rewrite Hlast, Hinit, Hj. reflexivity.
Qed.

Lemma well_formed_two (o : operation) (ps : list value) :
  arity o = 2 ->
  well_formed o ps = true ->
  exists n v,
    ps = [VStr n; v] /\ normalised n = true /\ is_None v = false
    /\ (o = op_generate -> truthy v = true).
Proof.
  intros Ho Hwf.
  destruct ps as [|p0 [|v [|p2 ps]]]; try (destruct o; discriminate Hwf).
  - destruct o; try discriminate Ho; destruct p0; discriminate Hwf.
  - destruct p0 as [| n | |]; try (destruct o; discriminate Hwf).
    exists n, v.
    destruct o; try discriminate Ho; cbn in Hwf;
      apply andb_prop in Hwf as [Hn Hv];
      repeat split; try assumption; try discriminate;
      try (now apply negb_true_iff in Hv).
    + destruct v; (reflexivity || discriminate).
    + intros _. exact Hv.
  - destruct o; try discriminate Ho; destruct p0; discriminate Hwf.
Qed.

Lemma well_formed_init (ps : list value) :
  well_formed op_init ps = true -> exists g, ps = [g] /\ is_None g = false.
Proof.
  destruct ps as [|g [|p1 ps]]; try discriminate.
  cbn. intros H. apply negb_true_iff in H. now exists g.
Qed.

Lemma well_formed_add_otp (ps : list value) :
  well_formed op_add_otp ps = true ->
  exists n t secret,
    ps = [VStr n; VStr t; secret] /\ normalised n = true
    /\ is_otp_type (List.last (Py.split n) "") = false
    /\ is_otp_type t = true /\ is_None secret = false.
Proof.
  destruct ps as [|p0 [|p1 [|secret [|p3 ps]]]];
    try discriminate; try (destruct p0; discriminate);
    try (destruct p0, p1; discriminate).
  destruct p0 as [| n | |]; try discriminate.
  destruct p1 as [| t | |]; try discriminate.
  cbn. intros Hwf.
  apply andb_prop in Hwf as [Hwf Hsec]. apply andb_prop in Hwf as [Hwf Ht].
  apply andb_prop in Hwf as [Hn Hlast].
  apply negb_true_iff in Hsec, Hlast.
  now exists n, t, secret.
Qed.

Lemma reinvoke (E : Env) (o : operation) (ps : list value) (k : nat) (st : state E) :
  well_formed o ps = true ->
  k < arity o ->
  process_response E (nth k ps VNone) (token o (take k ps)) st
  = invoke E o (take (S k) ps) st.
Proof.
  intros Hwf Hk.
  destruct (arity o) as [|[|[|[|a]]]] eqn:Ho;
    try (destruct o; discriminate Ho).
  - (* one parameter: init *)
    destruct o; try discriminate Ho.
    destruct (well_formed_init ps Hwf) as (g & -> & Hg).
    destruct k; [|lia]. now apply reinvoke_first.
  - (* two parameters *)
    destruct (well_formed_two o ps Ho Hwf) as (n & v & -> & Hn & Hr & Hgen).
    destruct k as [|[|k]]; [| |lia].
    + now apply reinvoke_first.
    + now apply reinvoke_second.
  - (* three parameters: add_otp *)
    destruct o; try discriminate Ho.
    destruct (well_formed_add_otp ps Hwf) as (n & t & secret & -> & Hn & Hlast & Ht & Hsec).
    destruct k as [|[|[|k]]]; [| | |lia].
    + now apply reinvoke_first.
    + now apply reinvoke_otp_type.
    + now apply reinvoke_otp_secret.
Qed.

Lemma well_formed_length (o : operation) (ps : list value) :
  well_formed o ps = true -> length ps = arity o.
Proof.
  intros Hwf. destruct (arity o) as [|[|[|[|a]]]] eqn:Ho;
    try (destruct o; discriminate Ho).
  - destruct o; try discriminate Ho.
    now destruct (well_formed_init ps Hwf) as (g & -> & _).
  - now destruct (well_formed_two o ps Ho Hwf) as (n & v & -> & _).
  - destruct o; try discriminate Ho.
    now destruct (well_formed_add_otp ps Hwf) as (n & t & s & -> & _).
Qed.

Lemma cycles_invocations (E : Env) (o : operation) (ps : list value) :
  well_formed o ps = true ->
  forall n k (st : state E),
    k + S n = arity o ->
    cycles E o (take k ps) (drop k ps) st = invocations E o ps (S k) n st.
Proof.
  intros Hwf. pose proof (well_formed_length o ps Hwf) as Hlen.
  induction n as [|n IH]; intros k st Hk.
  - assert (Hlook : ps !! k = Some (nth k ps VNone)).
    { rewrite nth_lookup. destruct (lookup_lt_is_Some_2 ps k) as [x ->]; [lia|reflexivity]. }
    rewrite (drop_S _ _ _ Hlook).
    rewrite drop_ge by lia. cbn [cycles invocations].
    rewrite bind_ret_tt. apply reinvoke; [assumption|lia].
  - assert (Hlook : ps !! k = Some (nth k ps VNone)).
    { rewrite nth_lookup. destruct (lookup_lt_is_Some_2 ps k) as [x ->]; [lia|reflexivity]. }
    rewrite (drop_S _ _ _ Hlook). cbn [cycles invocations].
    rewrite <- (take_S_r _ _ _ Hlook).
    etransitivity.
    + apply bind_congr_l. intros s. apply reinvoke; [assumption|lia].
    + apply bind_congr_r. intros _ s. apply IH. lia.
Qed.

Lemma stepwise_invocations (E : Env) (o : operation) (ps : list value) (st : state E) :
  well_formed o ps = true ->
  stepwise E o ps st = invocations E o ps 0 (arity o) st.
Proof.
  intros Hwf. unfold stepwise.
  destruct (arity o) as [|a] eqn:Ho; [destruct o; discriminate Ho|].
  cbn [invocations]. apply bind_congr_r. intros _ s.
  change [] with (take 0 ps) at 1. change ps with (drop 0 ps) at 2.
  apply cycles_invocations; [assumption|lia].
Qed.

Lemma normalised_truthy (n : string) :
  normalised n = true -> truthy (VStr n) = true.
Proof.
  intros Hn. destruct (normalised_spec n Hn) as (He & _). unfold truthy. now rewrite He.
Qed.

Lemma otp_type_truthy (t : string) : is_otp_type t = true -> truthy (VStr t) = true.
Proof. intros Ht. destruct (is_otp_type_spec t Ht) as [-> | ->]; reflexivity. Qed.

(** A partial invocation that returns has put one question on the queue,
    and the question carries the token of the parameters known so far. *)
Lemma partial_invocation_asks (E : Env) (o : operation) (ps : list value) (k : nat)
      (st st' : state E) :
  well_formed o ps = true ->
  k < arity o ->
  invoke E o (take k ps) st = (Ret tt, st') ->
  exists a, q st' = q st ++ [a] /\ ask_identifier a = Some (token o (take k ps)).
Proof.
  intros Hwf Hk.
  destruct (arity o) as [|[|[|[|ar]]]] eqn:Ho;
    try (destruct o; discriminate Ho).
  - destruct o; try discriminate Ho.
    destruct k; [|lia]. cbn. intros [= <-]. eexists; split; reflexivity.
  - destruct (well_formed_two o ps Ho Hwf) as (n & v & -> & Hn & _).
    pose proof (normalised_truthy n Hn) as Ht.
    destruct k as [|[|k]]; [| |lia].
    + destruct o; try discriminate Ho; cbn; intros [= <-];
        eexists; split; reflexivity.
    + destruct o; try discriminate Ho; cbn [take invoke nth];
        unfold _insert, _generate, _edit, _copy, _rename, _remove;
        rewrite Ht; cbn [negb truthy is_None];
        try (cbn; intros [= <-]; eexists; split; reflexivity).
      unfold bind, perform.
      destruct (get_decrypted_password E (VStr n) (world st)) as [[cd|e] w];
        cbn; intros [= <-]. eexists; split; reflexivity.
  - destruct o; try discriminate Ho.
    destruct (well_formed_add_otp ps Hwf) as (n & t & s & -> & Hn & _ & Ht & _).
    pose proof (normalised_truthy n Hn) as Hnt.
    pose proof (otp_type_truthy t Ht) as Htt.
    destruct k as [|[|[|k]]]; [| | |lia];
      cbn [take invoke nth]; unfold _add_otp; rewrite ?Hnt, ?Htt;
      cbn; intros [= <-]; eexists; split; reflexivity.
Qed.

(** C1, as stated, fails on a name with two spaces in a row: the token
    keeps the words of the name, not the name, and the entry is written
    under another name than the one given at once. *)
Lemma double_space_name_changes_call :
  calls (snd (stepwise mem_env op_insert [VStr "a  b"; VStr "v"] (mem_state [])))
  = [insert_password_call (VStr "a b") (VStr "v")]
  /\ calls (snd (invoke mem_env op_insert [VStr "a  b"; VStr "v"] (mem_state [])))
     = [insert_password_call (VStr "a  b") (VStr "v")].
Proof. split; reflexivity. Qed.

(** C1, amended: on well-formed parameters (the name a non-empty string of
    words separated by single spaces; every answer not [None]; the length
    of [generate] not empty; for [add_otp] the last word of the name not an
    OTP type and the type TOTP or HOTP), each answer delivered with the
    token [<operation> <known parameters>] runs the operation with the
    known parameters and the answer. The whole flow is the operation
    called with no parameter, then with one, and so on: its last step is
    the call with all parameters, hence the same calls to the store with
    the same arguments. Every earlier step that returns puts one question
    on the queue, and the question carries that token. *)
Theorem stepwise_reinvokes (E : Env) (o : operation) (ps : list value) :
  well_formed o ps = true ->
  (forall k (st : state E),
      k < arity o ->
      process_response E (nth k ps VNone) (token o (take k ps)) st
      = invoke E o (take (S k) ps) st)
  /\ (forall st : state E,
        process_response E (nth (arity o - 1) ps VNone)
                         (token o (take (arity o - 1) ps)) st
        = invoke E o ps st)
  /\ (forall st : state E,
        stepwise E o ps st = invocations E o ps 0 (arity o) st)
  /\ (forall k (st st' : state E),
        k < arity o ->
        invoke E o (take k ps) st = (Ret tt, st') ->
        exists a, q st' = q st ++ [a]
                  /\ ask_identifier a = Some (token o (take k ps))).
Proof.
  intros Hwf. repeat apply conj.
  - intros k st Hk. now apply reinvoke.
  - intros st. pose proof (well_formed_length o ps Hwf) as Hlen.
    assert (Ha : 0 < arity o) by (destruct o; cbn; lia).
    rewrite reinvoke by (assumption || lia).
    replace (S (arity o - 1)) with (length ps) by lia.
    now rewrite firstn_all.
  - intros st. now apply stepwise_invocations.
  - intros k st st' Hk. now apply partial_invocation_asks.
Qed.

Lemma stepwise_reinvokes_witness :
  well_formed op_add_otp [VStr "mail work"; VStr "TOTP"; VStr "JBSWY3DP"] = true
  /\ stepwise mem_env op_add_otp [VStr "mail work"; VStr "TOTP"; VStr "JBSWY3DP"]
       (mem_state [("mail work", "pw")])
     = invocations mem_env op_add_otp [VStr "mail work"; VStr "TOTP"; VStr "JBSWY3DP"]
         0 3 (mem_state [("mail work", "pw")]).
Proof.
  split; [reflexivity|].
  exact (proj1 (proj2 (proj2 (stepwise_reinvokes mem_env op_add_otp
                         [VStr "mail work"; VStr "TOTP"; VStr "JBSWY3DP"] eq_refl)))
           (mem_state [("mail work", "pw")])).
Defined.

Example add_otp_three_cycles :
  stepwise mem_env op_add_otp [VStr "mail work"; VStr "TOTP"; VStr "JBSWY3DP"]
    (mem_state [("mail work", "pw")])
  = (Ret tt,
     mkState (E := mem_env)
       [("mail work", "pw" +:+ String "010" "otpauth://totp/Secret?secret=JBSWY3DP");
        ("mail work", "pw")]
       [get_decrypted_password_call (VStr "mail work");
        insert_password_call (VStr "mail work")
          (VStr ("pw" +:+ String "010" "otpauth://totp/Secret?secret=JBSWY3DP"))]
       [ask_input "Add OTP to which password?" (VStr "") "add_otp";
        ask_choice "Use which OTP type?" ["TOTP"; "HOTP"] "add_otp mail work";
        ask_input "What is the OTP secret?" (VStr "") "add_otp mail work TOTP"]
       ∅).
Proof. vm_compute. reflexivity. Qed.

(** ** What the methods keep *)

Section Preserves.

Context {E : Env} (R : state E -> state E -> Prop).
Hypothesis R_refl : forall st, R st st.
Hypothesis R_trans : forall a b c, R a b -> R b c -> R a c.

Lemma preserves_ret {A} (a : A) : preserves R (ret (E := E) a).
Proof. intros st. apply R_refl. Qed.

Lemma preserves_raise {A} (e : exn) : preserves R (raise (E := E) (A := A) e).
Proof. intros st. apply R_refl. Qed.

Lemma preserves_lift {A} (o : outcome A) : preserves R (lift (E := E) o).
Proof. intros st. apply R_refl. Qed.

Lemma preserves_get : preserves R (get_passwordEntries (E := E)).
Proof. intros st. apply R_refl. Qed.

Lemma preserves_bind {A B} (m : M E A) (k : A -> M E B) :
  preserves R m -> (forall a, preserves R (k a)) -> preserves R (bind m k).
Proof.
  intros Hm Hk st. unfold bind. specialize (Hm st).
  destruct (m st) as [[a|e] st1]; cbn in *; [|exact Hm].
  eapply R_trans; [exact Hm | apply Hk].
Qed.

Lemma preserves_for_each {A} (l : list A) (body : A -> M E unit) :
  (forall x, preserves R (body x)) -> preserves R (for_each E l body).
Proof.
  intros Hb. induction l as [|x l IH]; cbn [for_each].
  - apply preserves_ret.
  - apply preserves_bind; [apply Hb | intros _; exact IH].
Qed.

Lemma preserves_map_m {A B} (f : A -> M E B) (l : list A) :
  (forall x, preserves R (f x)) -> preserves R (map_m E f l).
Proof.
  intros Hf. induction l as [|x l IH]; cbn [map_m].
  - apply preserves_ret.
  - apply preserves_bind; [apply Hf | intros y].
    apply preserves_bind; [exact IH | intros ys; apply preserves_ret].
Qed.

End Preserves.

Lemma calls_within_refl {E} (P : call -> bool) (st : state E) : calls_within P st st.
Proof. exists []. split; [now rewrite app_nil_r | reflexivity]. Qed.

Lemma calls_within_trans {E} (P : call -> bool) (a b c : state E) :
  calls_within P a b -> calls_within P b c -> calls_within P a c.
Proof.
  intros (n1 & H1 & P1) (n2 & H2 & P2). exists (n1 ++ n2). split.
  - now rewrite H2, H1, app_assoc.
  - now rewrite forallb_app, P1, P2.
Qed.

Lemma calls_within_put {E} (P : call -> bool) (a : action) :
  preserves (calls_within P) (put (E := E) a).
Proof. intros st. exists []. cbn. split; [now rewrite app_nil_r | reflexivity]. Qed.

Lemma calls_within_set {E} (P : call -> bool) (m : gmap string string) :
  preserves (calls_within P) (set_passwordEntries (E := E) m).
Proof. intros st. exists []. cbn. split; [now rewrite app_nil_r | reflexivity]. Qed.

Lemma calls_within_perform {E A} (P : call -> bool) (c : call)
      (f : W E -> outcome A * W E) :
  P c = true -> preserves (calls_within P) (perform c f).
Proof.
  intros Hc st. unfold perform. destruct (f (world st)) as [r w]. cbn.
  exists [c]. split; [reflexivity | cbn; now rewrite Hc].
Qed.

Lemma same_cache_refl {E} (st : state E) : same_cache st st.
Proof. reflexivity. Qed.

Lemma same_cache_trans {E} (a b c : state E) :
  same_cache a b -> same_cache b c -> same_cache a c.
Proof. unfold same_cache. congruence. Qed.

Lemma same_cache_put {E} (a : action) : preserves same_cache (put (E := E) a).
Proof. intros st. reflexivity. Qed.

Lemma same_cache_perform {E A} (c : call) (f : W E -> outcome A * W E) :
  preserves same_cache (perform c f).
Proof. intros st. unfold perform. now destruct (f (world st)). Qed.

(** Steps of a proof that a method keeps [calls_within P]. *)
Ltac within_step :=
  first
    [ apply (preserves_bind _ (calls_within_trans _)); [|intros ?]
    | apply (preserves_ret _ (calls_within_refl _))
    | apply (preserves_raise _ (calls_within_refl _))
    | apply (preserves_lift _ (calls_within_refl _))
    | apply (preserves_get _ (calls_within_refl _))
    | apply calls_within_put
    | apply calls_within_set
    | apply calls_within_perform; reflexivity ].

(** Steps of a proof that a method keeps the cache. *)
Ltac cache_step :=
  first
    [ apply (preserves_bind _ same_cache_trans); [|intros ?]
    | apply (preserves_ret _ same_cache_refl)
    | apply (preserves_raise _ same_cache_refl)
    | apply (preserves_lift _ same_cache_refl)
    | apply (preserves_get _ same_cache_refl)
    | apply same_cache_put
    | apply same_cache_perform ].

Ltac split_if :=
  match goal with
  | |- preserves _ (if ?b then _ else _) => destruct b
  | |- preserves _ (match ?x with _ => _ end) => destruct x
  end.

Lemma append_String_nonempty (a b : string) (c : ascii) :
  Py.is_empty (a +:+ String c b) = false.
Proof. destruct a; reflexivity. Qed.

Lemma truthy_append (a b : string) (c : ascii) :
  truthy (VStr (a +:+ String c b)) = true.
Proof. unfold truthy. now rewrite append_String_nonempty. Qed.

(** *** The prompt flow never touches the entry cache *)

Lemma copy_keeps_cache (E : Env) (name copy_name : value) :
  preserves same_cache (_copy E name copy_name).
Proof.
  unfold _copy. repeat (first [cache_step | split_if]).
  intros st. unfold shutil_copyfile, perform.
  destruct (samefile E _ _ (world st)); [reflexivity|].
  destruct (copyfile E _ _ (world st)) as [[[]|e] w]; [reflexivity|].
  destruct e; reflexivity.
Qed.

Lemma insert_keeps_cache (E : Env) (name value : value) :
  preserves same_cache (_insert E name value).
Proof. unfold _insert. repeat (first [cache_step | split_if]). Qed.

Lemma run_leaf_keeps_cache (E : Env) (l : leaf) (response : value) (op : string)
      (args : list string) :
  preserves same_cache (run_leaf E l response op args).
Proof.
  destruct l; cbn [run_leaf];
    try apply copy_keeps_cache; try apply insert_keeps_cache;
    unfold _add_otp, _edit, _generate, _init, _remove, _rename;
    repeat (first [apply insert_keeps_cache | cache_step | split_if]).
Qed.

(** X1: whatever the response and the identifier, and whether it returns
    or raises, [process_response] leaves the entry cache as it was: the
    prompt flow never changes what a later field selection will copy. *)
Theorem process_response_keeps_cache (E : Env) (response : value)
        (identifier : string) (st : state E) :
  passwordEntries (snd (process_response E response identifier st))
  = passwordEntries st.
Proof.
  unfold process_response.
  destruct (is_None response); [reflexivity|].
  destruct (Py.split identifier) as [|op args]; [reflexivity|].
  apply run_leaf_keeps_cache.
Qed.

(** *** No empty password, no empty name *)

Ltac written_perform :=
  apply calls_within_perform; cbn [written_ok];
  repeat match goal with
         | H : negb (truthy ?x) = false |- _ =>
             apply negb_false_iff in H; rewrite ?H
         end;
  try reflexivity.

Lemma insert_written_ok (E : Env) (name value : value) :
  preserves (calls_within written_ok) (_insert E name value).
Proof.
  unfold _insert.
  destruct (negb (truthy name)) eqn:Hn; [within_step|].
  destruct (negb (truthy value)) eqn:Hv; [within_step|].
  within_step; [written_perform | within_step].
Qed.

Lemma copy_written_ok (E : Env) (name copy_name : value) :
  preserves (calls_within written_ok) (_copy E name copy_name).
Proof.
  unfold _copy. repeat (first [within_step | split_if]).
  intros st. unfold shutil_copyfile, perform.
  destruct (samefile E _ _ (world st)).
  - cbn. eexists; split; [reflexivity | reflexivity].
  - destruct (copyfile E _ _ (world st)) as [[[]|e] w];
      [|destruct e]; cbn; eexists; split; reflexivity.
Qed.

Lemma run_leaf_written_ok (E : Env) (l : leaf) (response : value) (op : string)
      (args : list string) :
  preserves (calls_within written_ok) (run_leaf E l response op args).
Proof.
  destruct l; cbn [run_leaf];
    try apply copy_written_ok; try apply insert_written_ok;
    unfold _add_otp, _edit, _generate, _init, _remove, _rename;
    repeat match goal with
           | |- preserves _ (if negb (truthy ?x) then _ else _) =>
               let H := fresh "Ht" in destruct (negb (truthy x)) eqn:H
           | |- preserves _ (_insert _ _ _) => apply insert_written_ok
           | |- preserves _ (perform (insert_password_call _ (VStr _)) _) =>
               apply calls_within_perform; cbn [written_ok];
               rewrite truthy_append;
               repeat match goal with
                      | H : negb (truthy ?x) = false |- _ =>
                          apply negb_false_iff in H; rewrite ?H
                      end; reflexivity
           | |- preserves _ (perform (insert_password_call _ _) _) => written_perform
           | |- _ => first [within_step | split_if]
           end.
Qed.

(** X2: every call [process_response] makes to [insert_password] carries a
    name and a content that are not empty: no answer, and no password the
    store generates, is written as an empty entry or under an empty name. *)
Theorem never_writes_empty (E : Env) (response : value) (identifier : string)
        (st : state E) :
  exists new,
    calls (snd (process_response E response identifier st)) = calls st ++ new
    /\ forallb written_ok new = true.
Proof.
  unfold process_response.
  destruct (is_None response); [apply calls_within_refl|].
  destruct (Py.split identifier) as [|op args]; [apply calls_within_refl|].
  apply run_leaf_written_ok.
Qed.

(** *** Selections only read *)

Lemma otp_line_within (E : Env) (P : call -> bool) (line : string) :
  preserves (calls_within P) (otp_line E line).
Proof.
  intros st. destruct (otp_line E line st) as [r st'] eqn:Hrun.
  destruct (otp_line_frame E line st st' r Hrun) as (Hc & _).
  exists []. cbn. split; [now rewrite app_nil_r | reflexivity].
Qed.

Lemma get_entries_reads (E : Env) : preserves (calls_within reads_only) (_get_entries E).
Proof.
  unfold _get_entries. within_step; [within_step|].
  within_step.
  - apply (preserves_map_m _ (calls_within_refl _) (calls_within_trans _)).
    intros password. unfold atime_key. repeat within_step.
  - apply (preserves_for_each _ (calls_within_refl _) (calls_within_trans _)).
    intros password. repeat within_step.
Qed.

Lemma open_entry_reads (E : Env) (f : frame) :
  preserves (calls_within reads_only) (open_entry E f).
Proof.
  unfold open_entry.
  apply (preserves_bind _ (calls_within_trans _)); [within_step | intros results].
  destruct results as [results|]; [|within_step].
  do 2 (within_step; [within_step|]).
  apply (preserves_bind _ (calls_within_trans _)); [|intros result_lines].
  - apply (preserves_map_m _ (calls_within_refl _) (calls_within_trans _)).
    intros line. apply otp_line_within.
  - assert (Hloop : forall l, preserves (calls_within reads_only)
                                (for_each E l (show_line E))).
    { intros l. apply (preserves_for_each _ (calls_within_refl _) (calls_within_trans _)).
      intros line. unfold show_line. repeat (first [within_step | split_if]). }
    destruct result_lines as [|l1 [|l2 ls]]; try apply Hloop. repeat within_step.
Qed.

(** X3: whatever the selection, [selection_made] only reads: the calls it
    makes are [get_decrypted_password], [get_passwords_list], [getatime]
    and [getmtime]. Choosing Edit, Copy, Rename, Remove or Add OTP in a
    menu writes, copies, renames and deletes nothing before an answer
    arrives through [process_response]. *)
Theorem selection_made_only_reads (E : Env) (selection : list frame) (st : state E) :
  exists new,
    calls (snd (selection_made E selection st)) = calls st ++ new
    /\ forallb reads_only new = true.
Proof.
  revert st. change (preserves (calls_within reads_only) (selection_made E selection)).
  unfold selection_made.
  destruct selection as [|f0 others].
  - do 4 (within_step; [within_step|]). apply get_entries_reads.
  - destruct (SelectionType_eqb (ftype (List.last others f0)) sel_none).
    + unfold unexpected, _insert, _generate. cbn [truthy negb].
      repeat (first [within_step | split_if]).
    + destruct others as [|f1 [|f2 others]].
      * unfold unexpected, _edit, _copy, _rename, _remove, _add_otp.
        cbn [truthy negb is_None].
        repeat match goal with
               | |- preserves _ (open_entry _ _) => apply open_entry_reads
               | |- _ => first [within_step | split_if]
               end.
      * unfold entry_at. repeat (first [within_step | split_if]).
      * unfold unexpected. within_step.
Qed.

(** ** Identifiers that name no operation *)

Lemma split_go_blank (s : string) :
  all_space s = true -> Py.split_go s = (EmptyString, []).
Proof.
  induction s as [|c s IH]; [reflexivity|]. cbn.
  intros H. apply andb_prop in H as [Hc Hs]. now rewrite Hc, (IH Hs).
Qed.

(** X4: an identifier made of white space only (the empty one among them)
    has no first word: with a response that is not [None],
    [process_response] raises [IndexError] at [data[0]] and puts nothing on
    the queue. *)
Theorem blank_identifier_raises (E : Env) (response : value) (identifier : string)
        (st : state E) :
  is_None response = false ->
  all_space identifier = true ->
  process_response E response identifier st = (Raise IndexError, st).
Proof.
  intros Hr Hb. unfold process_response, Py.split.
  now rewrite Hr, (split_go_blank identifier Hb).
Qed.

Lemma blank_identifier_raises_witness :
  all_space "  " = true
  /\ process_response mem_env (VStr "x") "  " (mem_state []) = (Raise IndexError, mem_state []).
Proof.
  split; [reflexivity|].
  exact (blank_identifier_raises mem_env (VStr "x") "  " (mem_state []) eq_refl eq_refl).
Defined.

(** X5: when the first word of the identifier is none of the eight
    operation names, a response that is not [None] gets one
    [critical_error] whose text is built from the words of the identifier
    joined by single spaces; no call is made and the method returns. *)
Theorem unknown_request_reported (E : Env) (response : value)
        (identifier op : string) (args : list string) (st : state E) :
  is_None response = false ->
  Py.split identifier = op :: args ->
  (forall o, op <> op_name o) ->
  process_response E response identifier st
  = (Ret tt,
     with_action st
       (critical_error
          (message E "Unknown request received: {}" [Py.join " " (op :: args)]))).
Proof.
  intros Hr Hs Hop. unfold process_response. rewrite Hr, Hs.
  assert (Hne : forall o, String.eqb op (op_name o) = false)
    by (intros o; apply String.eqb_neq, Hop).
  pose proof (Hne op_add_otp) as H1. pose proof (Hne op_copy) as H2.
  pose proof (Hne op_edit) as H3. pose proof (Hne op_generate) as H4.
  pose proof (Hne op_init) as H5. pose proof (Hne op_insert) as H6.
  pose proof (Hne op_remove) as H7. pose proof (Hne op_rename) as H8.
  cbn [op_name] in H1, H2, H3, H4, H5, H6, H7, H8.
  unfold select_leaf. rewrite H1, H2, H3, H4, H5, H6, H7, H8.
  reflexivity.
Qed.

Lemma unknown_request_reported_witness :
  process_response mem_env (VStr "x") "delete  mail" (mem_state [])
  = (Ret tt,
     mkState (E := mem_env) [] [] [critical_error "Unknown request received: {}"] ∅).
Proof.
  apply (unknown_request_reported mem_env (VStr "x") "delete  mail" "delete" ["mail"]
           (mem_state []) eq_refl eq_refl).
  intros o. destruct o; discriminate.
Defined.

(** ** [add_otp]: names that end in an OTP type, entries that do not decrypt *)

(** X6: in the second cycle of [add_otp] the token is read from its last
    word. When the name given in the first cycle ends with the word TOTP or
    HOTP, the answer to the type question is taken for the secret, that
    last word for the type, and the rest of the name for the name. *)
Theorem add_otp_name_ending_in_type (E : Env) (n : string) (answer : value)
        (st : state E) :
  Py.split n <> [] ->
  is_otp_type (List.last (Py.split n) "") = true ->
  is_None answer = false ->
  process_response E answer (token op_add_otp [VStr n]) st
  = _add_otp E (VStr (Py.join " " (removelast (Py.split n))))
             (VStr (List.last (Py.split n) "")) answer st.
Proof.
  intros Hne Hlast Hr. unfold process_response.
  rewrite Hr, split_token_1.
  destruct (Py.split n) as [|w ws] eqn:Hs; [congruence|].
  unfold select_leaf. cbn [op_name String.eqb Ascii.eqb Bool.eqb].
  rewrite Hr, Hlast. reflexivity.
Qed.

Lemma add_otp_name_ending_in_type_witness :
  is_otp_type (List.last (Py.split "bank TOTP") "") = true
  /\ process_response mem_env (VStr "HOTP") "add_otp bank TOTP" (mem_state [("bank", "pw")])
     = (Ret tt,
        mkState (E := mem_env)
          [("bank", "pw" +:+ String "010" "otpauth://totp/Secret?secret=HOTP");
           ("bank", "pw")]
          [get_decrypted_password_call (VStr "bank");
           insert_password_call (VStr "bank")
             (VStr ("pw" +:+ String "010" "otpauth://totp/Secret?secret=HOTP"))]
          [] ∅).
Proof.
  split; [reflexivity|].
  etransitivity;
    [exact (add_otp_name_ending_in_type mem_env "bank TOTP" (VStr "HOTP")
              (mem_state [("bank", "pw")]) ltac:(discriminate) eq_refl eq_refl)
    | reflexivity].
Defined.

(** X7: [add_otp] does not look at what the decryption gave. When the
    store returns [None] for the entry (it could not decrypt it), the entry
    is written anew with the text [None] as its first line, followed by the
    provisioning URI. *)
Theorem add_otp_writes_None (E : Env) (name secret : value) (uri : string)
        (w : W E) (st : state E) :
  truthy name = true ->
  truthy secret = true ->
  totp_provisioning_uri E secret = Ret uri ->
  get_decrypted_password E name (world st) = (Ret None, w) ->
  _add_otp E name (VStr "TOTP") secret st
  = perform (insert_password_call name (VStr ("None" +:+ String "010" uri)))
            (insert_password E name (VStr ("None" +:+ String "010" uri)))
            (after_call st (get_decrypted_password_call name) w).
Proof.
  intros Hn Hs Huri Hdec. unfold _add_otp. rewrite Hn, Hs.
  cbn [truthy Py.is_empty negb eq_str String.eqb Ascii.eqb Bool.eqb].
  unfold bind at 1. unfold bind at 1. unfold lift. rewrite Huri.
  unfold ret at 1. unfold bind at 1. unfold perform at 1. rewrite Hdec.
  reflexivity.
Qed.

Lemma add_otp_writes_None_witness :
  get_decrypted_password mem_env (VStr "mail") [] = (Ret None, [])
  /\ _add_otp mem_env (VStr "mail") (VStr "TOTP") (VStr "S") (mem_state [])
     = (Ret tt,
        mkState (E := mem_env)
          [("mail", "None" +:+ String "010" "otpauth://totp/Secret?secret=S")]
          [get_decrypted_password_call (VStr "mail");
           insert_password_call (VStr "mail")
             (VStr ("None" +:+ String "010" "otpauth://totp/Secret?secret=S"))]
          [] ∅).
Proof.
  split; [reflexivity|].
  etransitivity;
    [exact (add_otp_writes_None mem_env (VStr "mail") (VStr "S")
              "otpauth://totp/Secret?secret=S" [] (mem_state [])
              eq_refl eq_refl eq_refl eq_refl)
    | reflexivity].
Defined.

(** ** [generate] when the store returns an empty password *)

(** X8: [_generate] hands the generated password to [_insert], which takes
    an empty value for a missing one: when the store returns the empty
    string (as for the length 0), nothing is inserted and the user is asked
    for the value under the identifier of [insert]. *)
Theorem generate_empty_password_asks (E : Env) (name length : value) (n : Z)
        (w : W E) (st : state E) :
  truthy name = true ->
  truthy length = true ->
  py_int length = Ret n ->
  generate_password E name n (world st) = (Ret "", w) ->
  _generate E name length st
  = (Ret tt,
     with_action (after_call st (generate_password_call name n) w)
       (ask_input_multi_line
          (message E "What should the value of {} be?" [py_str name])
          (VStr "") ("insert " +:+ py_str name))).
Proof.
  intros Hn Hl Hint Hgen. unfold _generate. rewrite Hn, Hl.
  cbn [negb]. unfold bind at 1. unfold lift. rewrite Hint.
  unfold bind at 1. unfold perform. rewrite Hgen.
  unfold _insert. rewrite Hn. reflexivity.
Qed.

Lemma generate_empty_password_asks_witness :
  py_int (VStr "0") = Ret 0%Z
  /\ _generate mem_env (VStr "mail") (VStr "0") (mem_state [])
     = (Ret tt,
        mkState (E := mem_env) []
          [generate_password_call (VStr "mail") 0]
          [ask_input_multi_line "What should the value of {} be?" (VStr "") "insert mail"]
          ∅).
Proof.
  split; [reflexivity|].
  exact (generate_empty_password_asks mem_env (VStr "mail") (VStr "0") 0 []
           (mem_state []) eq_refl eq_refl eq_refl eq_refl).
Defined.

(** ** The files the operations reach *)

Lemma append_assoc (a b c : string) : (a +:+ b) +:+ c = a +:+ (b +:+ c).
Proof.
  induction a as [|x a IH]; [reflexivity|].
  rewrite !append_cons. now rewrite IH.
Qed.

Lemma starts_with_slash_append (n s : string) :
  Py.is_empty n = false ->
  Py.starts_with_slash (n +:+ s) = Py.starts_with_slash n.
Proof. destruct n; [discriminate | reflexivity]. Qed.

Lemma gpg_file_relative (E : Env) (n : string) :
  Py.starts_with_slash n = false ->
  gpg_file E (VStr n) = root_prefix E +:+ n +:+ ".gpg".
Proof.
  intros Hn. unfold gpg_file, Py.path_join, root_prefix, _get_data_location.
  cbn [py_str].
  assert (Hs : Py.starts_with_slash (n +:+ ".gpg") = false).
  { destruct n; [reflexivity | exact Hn]. }
  rewrite Hs.
  destruct (Py.is_empty (data_location E) || Py.ends_with_slash (data_location E))%bool;
    [reflexivity|].
  now rewrite append_assoc.
Qed.

(** X9: for two names that are given and do not start with a slash,
    [_rename] makes one call, [os.rename], from the file of the first name
    to the file of the second, both under the store root; it clears the
    selection when the call returns, and lets its exception through, with
    nothing put on the queue, when the call raises. *)
Theorem rename_moves_entry_file (E : Env) (n n' : string) (st : state E) :
  Py.is_empty n = false -> Py.is_empty n' = false ->
  Py.starts_with_slash n = false -> Py.starts_with_slash n' = false ->
  _rename E (VStr n) (VStr n') st
  = let src := root_prefix E +:+ n +:+ ".gpg" in
    let dst := root_prefix E +:+ n' +:+ ".gpg" in
    match os_rename E src dst (world st) with
    | (Ret _, w) =>
        (Ret tt, with_action (after_call st (rename_call src dst) w) (set_selection []))
    | (Raise e, w) => (Raise e, after_call st (rename_call src dst) w)
    end.
Proof.
  intros He He' Hn Hn'. unfold _rename. cbn [truthy]. rewrite He, He'. cbn [negb].
  rewrite !gpg_file_relative by assumption. cbn zeta.
  unfold bind, perform.
  destruct (os_rename E _ _ (world st)) as [[[]|e] w]; reflexivity.
Qed.

Lemma rename_moves_entry_file_witness :
  _rename mem_env (VStr "mail") (VStr "post") (mem_state [])
  = (Ret tt,
     mkState (E := mem_env) []
       [rename_call "/home/u/.password-store/mail.gpg" "/home/u/.password-store/post.gpg"]
       [set_selection []] ∅).
Proof.
  etransitivity;
    [exact (rename_moves_entry_file mem_env "mail" "post" (mem_state [])
              eq_refl eq_refl eq_refl eq_refl)
    | reflexivity].
Defined.

(** X10: a name whose first word starts with a slash is not looked up
    under the store root: [os.path.join] drops the root, and a confirmed
    [remove] calls [os.remove] on the name itself with [.gpg] after it. *)
Theorem absolute_name_leaves_store (E : Env) (identifier w : string)
        (ws : list string) (st : state E) :
  Py.split identifier = "remove" :: w :: ws ->
  Py.starts_with_slash w = true ->
  calls (snd (process_response E (VBool true) identifier st))
  = calls st ++ [remove_call (Py.join " " (w :: ws) +:+ ".gpg")].
Proof.
  intros Hs Hw.
  rewrite (process_response_remove E identifier w ws) by (assumption || reflexivity).
  unfold _remove. rewrite (rest_truthy identifier _ w ws Hs).
  cbn [negb is_None truthy].
  assert (Hj : Py.starts_with_slash (Py.join " " (w :: ws) +:+ ".gpg") = true).
  { destruct w as [|c w]; [discriminate|]. destruct ws; exact Hw. }
  unfold gpg_file, Py.path_join. cbn [py_str]. rewrite Hj.
  unfold bind, perform.
  destruct (os_remove E _ (world st)) as [[[]|e] w0]; reflexivity.
Qed.

Lemma absolute_name_leaves_store_witness :
  Py.split "remove /etc/x" = ["remove"; "/etc/x"]
  /\ calls (snd (process_response mem_env (VBool true) "remove /etc/x" (mem_state [])))
     = [remove_call "/etc/x.gpg"].
Proof.
  split; [reflexivity|].
  exact (absolute_name_leaves_store mem_env "remove /etc/x" "/etc/x" []
           (mem_state []) eq_refl eq_refl).
Defined.

(** ** Selections that open nothing *)

(** X11: an entry selected for itself that the store cannot decrypt (the
    store returns [None]) is not opened: after the one call to the store
    the only action is [set_selection] with the empty path, and the lists
    of the host are not replaced. *)
Theorem undecryptable_entry_resets (E : Env) (f : frame) (w : W E) (st : state E) :
  SelectionType_eqb (ftype f) sel_entry = true ->
  menu_option E f = false ->
  get_decrypted_password E (VStr (fvalue f)) (world st) = (Ret None, w) ->
  selection_made E [f] st
  = (Ret tt,
     with_action (after_call st (get_decrypted_password_call (VStr (fvalue f))) w)
       (set_selection [])).
Proof.
  intros Hty Hmenu Hdec. rewrite selection_made_opens by assumption.
  unfold open_entry, bind, perform. now rewrite Hdec.
Qed.

Lemma undecryptable_entry_resets_witness :
  menu_option mem_env mail_frame = false
  /\ selection_made mem_env [mail_frame] (mem_state [])
     = (Ret tt,
        mkState (E := mem_env) [] [get_decrypted_password_call (VStr "mail")]
          [set_selection []] ∅).
Proof.
  split; [reflexivity|].
  exact (undecryptable_entry_resets mem_env mail_frame [] (mem_state [])
           eq_refl eq_refl eq_refl).
Defined.

(** X12: a selection path that does not end in a frame of type [none] and
    is neither empty, nor one entry, nor two frames is refused: a single
    frame of type [command], and every path of three frames or more, gets
    one [critical_error] and nothing else; no call is made and the cache
    is kept. *)
Theorem unexpected_selection_reported (E : Env) (f0 : frame) (others : list frame)
        (st : state E) :
  SelectionType_eqb (ftype (List.last others f0)) sel_none = false ->
  (others = [] /\ ftype f0 = sel_command) \/ 2 <= length others ->
  selection_made E (f0 :: others) st
  = (Ret tt,
     with_action st
       (critical_error
          (message E "Unexpected selection_made value: {}"
             [repr_selection E (f0 :: others)]))).
Proof.
  intros Hlast Hshape. unfold selection_made. rewrite Hlast.
  destruct Hshape as [[-> Hcmd] | Hlen].
  - rewrite Hcmd. reflexivity.
  - destruct others as [|f1 [|f2 others]]; cbn in Hlen; try lia. reflexivity.
Qed.

Lemma unexpected_selection_reported_witness :
  selection_made mem_env [mail_frame; mail_frame; mail_frame] (mem_state [])
  = (Ret tt,
     mkState (E := mem_env) [] []
       [critical_error "Unexpected selection_made value: {}"] ∅).
Proof.
  apply (unexpected_selection_reported mem_env mail_frame [mail_frame; mail_frame]
           (mem_state []) eq_refl).
  right. cbn. lia.
Defined.

(** ** [init] *)

Lemma path_join_nonempty (a b : string) :
  Py.is_empty b = false -> Py.is_empty (Py.path_join a b) = false.
Proof.
  intros Hb. unfold Py.path_join.
  destruct (Py.starts_with_slash b); [exact Hb|].
  destruct b as [|c b]; [discriminate|].
  destruct (Py.is_empty a || Py.ends_with_slash a)%bool.
  - apply append_String_nonempty.
  - rewrite <- append_assoc. apply append_String_nonempty.
Qed.

(** X13: on a host whose API version is below 0.11.1, [init] puts one
    [critical_error] naming the version and stops: no base menu, no
    listing, no call to the store, and the state is otherwise as it was. *)
Theorem init_refuses_old_host (E : Env) (st : state E) :
  list_lt (api_version E) [0; 11; 1]%Z = true ->
  init E st
  = (Ret tt,
     with_action st
       (critical_error
          (message E "This module requires at least API version 0.11.1, you are using {}. Please update Pext."
             [Py.join "." (map pretty (api_version E))]))).
Proof. intros Hv. unfold init. now rewrite Hv. Qed.

Lemma init_refuses_old_host_witness :
  list_lt (api_version old_host) [0; 11; 1]%Z = true
  /\ init old_host (mkState (E := old_host) [("mail", "pw")] [] [] ∅)
     = (Ret tt,
        mkState (E := old_host) [("mail", "pw")] []
          [critical_error
             "This module requires at least API version 0.11.1, you are using {}. Please update Pext.0.9.12"]
          ∅).
Proof.
  split; [reflexivity|].
  etransitivity;
    [exact (init_refuses_old_host old_host
              (mkState (E := old_host) [("mail", "pw")] [] [] ∅) eq_refl)
    | reflexivity].
Defined.

(** X14: on a host that passes the version gate, [init] empties the cache,
    sets the base menu and lists the entries, and that is all: the test
    that guards [_init] looks at the path of the [.gpg-id] file, a string
    that is never empty, not at the file, so [init] never asks for a GPG
    id. *)
Theorem init_never_asks_gpg_id (E : Env) (st : state E) :
  list_lt (api_version E) [0; 11; 1]%Z = false ->
  init E st
  = (set_passwordEntries ∅ ;;
     put (set_base_context [tr E "Create"; tr E "Generate"]) ;;
     _get_entries E) st.
Proof.
  intros Hv. unfold init. rewrite Hv.
  rewrite (path_join_nonempty (data_location E) ".gpg-id" eq_refl).
  apply bind_congr_r. intros _ s. apply bind_congr_r. intros _ s'.
  apply bind_ret_tt.
Qed.

Lemma init_never_asks_gpg_id_witness :
  list_lt (api_version mem_env) [0; 11; 1]%Z = false
  /\ init mem_env (mem_state [])
     = (Ret tt,
        mkState (E := mem_env) [] [get_passwords_list_call]
          [set_base_context ["Create"; "Generate"]] ∅).
Proof.
  split; [reflexivity|].
  etransitivity;
    [exact (init_never_asks_gpg_id mem_env (mem_state []) eq_refl)
    | reflexivity].
Defined.

(** ** The name an operation receives from a token *)

Lemma split_go_word (w : string) :
  no_space w = true -> Py.split_go w = (w, []).
Proof.
  induction w as [|c w IH]; [reflexivity|]. cbn.
  intros H. apply andb_prop in H as [Hc Hw]. apply negb_true_iff in Hc.
  now rewrite Hc, (IH Hw).
Qed.

Lemma split_go_no_space (s : string) :
  no_space (fst (Py.split_go s)) = true
  /\ Forall (fun w => no_space w = true) (snd (Py.split_go s)).
Proof.
  induction s as [|c s [IHw IHws]]; [split; [reflexivity | constructor]|].
  cbn. destruct (Py.isspace c) eqn:Hc; cbn.
  - split; [reflexivity|]. unfold Py.cons_word.
    destruct (Py.is_empty (fst (Py.split_go s))); [assumption | now constructor].
  - rewrite Hc. cbn. split; assumption.
Qed.

Lemma split_no_space (s : string) :
  Forall (fun w => no_space w = true) (Py.split s).
Proof.
  destruct (split_go_no_space s) as [Hw Hws]. unfold Py.split, Py.cons_word.
  destruct (Py.is_empty (fst (Py.split_go s))); [assumption | now constructor].
Qed.

Lemma split_join (ws : list string) :
  Forall (fun w => no_space w = true) ws ->
  Forall (fun w => Py.is_empty w = false) ws ->
  Py.split (Py.join " " ws) = ws.
Proof.
  induction ws as [|w ws IH]; intros Hsp Hne; [reflexivity|].
  inversion Hsp as [|? ? Hw Hsp']; subst. inversion Hne as [|? ? Hw' Hne']; subst.
  assert (Hsplit : Py.split w = [w]).
  { unfold Py.split, Py.cons_word. rewrite (split_go_word w Hw). cbn. now rewrite Hw'. }
  destruct ws as [|w' ws]; [exact Hsplit|].
  change (Py.join " " (w :: w' :: ws)) with (w +:+ String " " (Py.join " " (w' :: ws))).
  rewrite split_app, Hsplit, (IH Hsp' Hne'). reflexivity.
Qed.

(** X15: the name a two-parameter operation receives from a token is the
    name given in the first cycle with every run of white space turned
    into one space and none left at either end. Whatever the name, as long
    as it has a word, the second cycle runs the operation on that name;
    and that name is one the token carries unchanged from then on. *)
Theorem token_normalises_name (E : Env) (o : operation) (n w : string)
        (ws : list string) (v : value) (st : state E) :
  arity o = 2 ->
  Py.split n = w :: ws ->
  is_None v = false ->
  (o = op_generate -> truthy v = true) ->
  process_response E v (token o [VStr n]) st
  = invoke E o [VStr (Py.join " " (w :: ws)); v] st
  /\ normalised (Py.join " " (w :: ws)) = true.
Proof.
  intros Ho Hs Hr Hgen. split.
  - unfold process_response. rewrite Hr, split_token_1, Hs.
    unfold select_leaf. rewrite Hr.
    destruct o; try discriminate Ho;
      cbn [op_name String.eqb Ascii.eqb Bool.eqb negb run_leaf invoke nth];
      try reflexivity.
    now rewrite (Hgen eq_refl).
  - unfold normalised.
    pose proof (split_words n) as Hne. pose proof (split_no_space n) as Hsp.
    rewrite Hs in Hne, Hsp.
    rewrite (split_join (w :: ws) Hsp Hne).
    inversion Hne as [|? ? Hw _]; subst.
    rewrite (join_cons_nonempty w ws Hw). cbn [negb andb].
    apply String.eqb_refl.
Qed.

Lemma token_normalises_name_witness :
  Py.split "  mail   work " = ["mail"; "work"]
  /\ process_response mem_env (VStr "pw") "insert   mail   work " (mem_state [])
     = (Ret tt,
        mkState (E := mem_env) [("mail work", "pw")]
          [insert_password_call (VStr "mail work") (VStr "pw")]
          [set_selection []] ∅).
Proof.
  split; [reflexivity|].
  etransitivity;
    [exact (proj1 (token_normalises_name mem_env op_insert "  mail   work "
                     "mail" ["work"] (VStr "pw") (mem_state [])
                     eq_refl eq_refl eq_refl ltac:(discriminate)))
    | reflexivity].
Defined.

(** ** The listing *)













(** ** The fields of an opened entry *)

Lemma otp_lines_frame (E : Env) (l : list string) (st st' : state E)
      (r : outcome (list string)) :
  map_m E (otp_line E) l st = (r, st') ->
  calls st' = calls st /\ q st' = q st /\ passwordEntries st' = passwordEntries st.
Proof.
  revert st st' r. induction l as [|x l IH]; intros st st' r; cbn [map_m].
  - intros [= <- <-]. auto.
  - unfold bind at 1.
    destruct (otp_line E x st) as [[y|e] s1] eqn:Hx;
      destruct (otp_line_frame E x st s1 _ Hx) as (Hc & Hq & Hp).
    + unfold bind at 1.
      destruct (map_m E (otp_line E) l s1) as [[ys|e] s2] eqn:Hl;
        destruct (IH _ _ _ Hl) as (Hc' & Hq' & Hp');
        unfold ret; intros [= <- <-]; repeat split; congruence.
    + intros [= <- <-]. auto.
Qed.

Lemma insert_size_nonzero (m : gmap string string) (k v : string) :
  Nat.eqb (size (<[k := v]> m)) 0 = false.
Proof.
  apply Nat.eqb_neq. intros Hz. apply map_size_empty_iff in Hz.
  now apply insert_non_empty in Hz.
Qed.

(** The field loop on a cache that is not empty: every line is its own
    label. *)
Lemma show_loop_plain (E : Env) (lines : list string) (st : state E) :
  Nat.eqb (size (passwordEntries st)) 0 = false ->
  for_each E lines (show_line E) st
  = (Ret tt,
     mkState (world st) (calls st) (q st ++ map add_entry lines)
       (cache_fields lines (passwordEntries st))).
Proof.
  revert st. induction lines as [|l lines IH]; intros st Hsize; cbn [for_each].
  - cbn. rewrite app_nil_r. now destruct st.
  - unfold bind at 1. unfold show_line at 1. unfold bind at 1.
    unfold get_passwordEntries at 1. rewrite Hsize.
    unfold bind at 1. unfold set_passwordEntries at 1. unfold put at 1.
    cbn [world calls q passwordEntries].
    rewrite IH by apply insert_size_nonzero.
    cbn [world calls q passwordEntries map cache_fields foldl].
    now rewrite <- app_assoc.
Qed.

(** The field loop on an empty cache: the first line goes under the mask. *)
Lemma show_loop_masked (E : Env) (l1 : string) (rest : list string) (st : state E) :
  passwordEntries st = ∅ ->
  for_each E (l1 :: rest) (show_line E) st
  = (Ret tt,
     mkState (world st) (calls st)
       (q st ++ add_entry "********" :: map add_entry rest)
       (cache_fields rest {["********" := l1]})).
Proof.
  intros Hempty. cbn [for_each].
  unfold bind at 1. unfold show_line at 1. unfold bind at 1.
  unfold get_passwordEntries at 1. rewrite Hempty.
  change (Nat.eqb (size (∅ : gmap string string)) 0) with true. cbv iota.
  unfold bind at 1. unfold set_passwordEntries at 1. unfold put at 1.
  cbn [world calls q passwordEntries].
  rewrite show_loop_plain by apply insert_size_nonzero.
  cbn [world calls q passwordEntries]. rewrite <- app_assoc.
  rewrite insert_empty. reflexivity.
Qed.

Lemma cache_fields_lookup (fields : list string) (m : gmap string string) (k : string) :
  (k ∈ fields -> cache_fields fields m !! k = Some k)
  /\ (k ∉ fields -> cache_fields fields m !! k = m !! k).
Proof.
  revert m. induction fields as [|f fields IH]; intros m; cbn [cache_fields foldl].
  - split; [intros H; inversion H | reflexivity].
  - fold (cache_fields fields (<[f := f]> m)).
    destruct (IH (<[f := f]> m)) as [Hin Hout]. split.
    + intros Hk. destruct (decide (k ∈ fields)) as [Hkf|Hkf]; [now apply Hin|].
      rewrite (Hout Hkf). apply elem_of_cons in Hk as [-> | Hk]; [|contradiction].
      apply lookup_insert_eq.
    + intros Hk. apply not_elem_of_cons in Hk as [Hne Hkf].
      rewrite (Hout Hkf). now apply lookup_insert_ne.
Qed.

Lemma open_entry_fields (E : Env) (f : frame) (results : string) (lines : list string)
      (w : W E) (st st' : state E) :
  get_decrypted_password E (VStr (fvalue f)) (world st) = (Ret (Some results), w) ->
  map_m E (otp_line E) (Py.splitlines (Py.rstrip results)) (opened E f w st)
  = (Ret lines, st') ->
  2 <= length lines ->
  open_entry E f st
  = for_each E lines (show_line E)
      (mkState (world st')
         (calls st ++ [get_decrypted_password_call (VStr (fvalue f))])
         (q st ++ [replace_entry_list []; replace_command_list []])
         (passwordEntries st)).
Proof.
  intros Hdec Hotp Hlen.
  unfold open_entry, bind at 1. unfold perform. rewrite Hdec.
  unfold bind at 1. unfold put at 1. cbn [world calls q passwordEntries].
  unfold bind at 1. unfold put at 1. cbn [world calls q passwordEntries].
  rewrite <- app_assoc. cbn [app]. fold (opened E f w st).
  unfold bind at 1. rewrite Hotp.
  destruct (otp_lines_frame E _ _ _ _ Hotp) as (Hc & Hq & Hp).
  destruct st' as [w' c' q' p']. cbn in Hc, Hq, Hp. subst c' q' p'.
  destruct lines as [|l1 [|l2 lines]]; cbn in Hlen; try lia. reflexivity.
Qed.

(** X19: an entry of two lines or more, opened on an empty cache. After
    the two list resets the queue gets one [add_entry] per line: the mask
    for the first line, its own text for every other. The cache then maps
    every other line to itself, and the mask to the first line unless a
    later line is the mask itself. *)
Theorem open_entry_masks_first_line (E : Env) (f : frame) (results l1 l2 : string)
        (rest : list string) (w : W E) (st st' : state E) :
  SelectionType_eqb (ftype f) sel_entry = true ->
  menu_option E f = false ->
  passwordEntries st = ∅ ->
  get_decrypted_password E (VStr (fvalue f)) (world st) = (Ret (Some results), w) ->
  map_m E (otp_line E) (Py.splitlines (Py.rstrip results)) (opened E f w st)
  = (Ret (l1 :: l2 :: rest), st') ->
  selection_made E [f] st
  = (Ret tt,
     mkState (world st')
       (calls st ++ [get_decrypted_password_call (VStr (fvalue f))])
       (q st ++ [replace_entry_list []; replace_command_list []]
             ++ add_entry "********" :: map add_entry (l2 :: rest))
       (cache_fields (l2 :: rest) {["********" := l1]}))
  /\ (forall k, k ∈ l2 :: rest ->
                cache_fields (l2 :: rest) {["********" := l1]} !! k = Some k)
  /\ ("********" ∉ l2 :: rest ->
      cache_fields (l2 :: rest) {["********" := l1]} !! "********" = Some l1).
Proof.
  intros Hty Hmenu Hempty Hdec Hotp. split; [|split].
  - rewrite selection_made_opens by assumption.
    rewrite (open_entry_fields E f results (l1 :: l2 :: rest) w st st' Hdec Hotp)
      by (cbn; lia).
    rewrite show_loop_masked by exact Hempty.
    cbn [world calls q passwordEntries]. now rewrite <- app_assoc.
  - intros k Hk. now apply cache_fields_lookup.
  - intros Hk. rewrite (proj2 (cache_fields_lookup _ _ _) Hk).
    apply lookup_singleton_eq.
Qed.

(** X20: the mask is given only when the cache is empty. An entry of two
    lines or more opened while the cache still holds the fields of another
    entry (no main menu in between) gets every line, the first one too,
    as its own label: the password line is listed unmasked. *)
Theorem open_entry_on_stale_cache (E : Env) (f : frame) (results : string)
        (lines : list string) (w : W E) (st st' : state E) :
  SelectionType_eqb (ftype f) sel_entry = true ->
  menu_option E f = false ->
  passwordEntries st <> ∅ ->
  get_decrypted_password E (VStr (fvalue f)) (world st) = (Ret (Some results), w) ->
  map_m E (otp_line E) (Py.splitlines (Py.rstrip results)) (opened E f w st)
  = (Ret lines, st') ->
  2 <= length lines ->
  selection_made E [f] st
  = (Ret tt,
     mkState (world st')
       (calls st ++ [get_decrypted_password_call (VStr (fvalue f))])
       (q st ++ [replace_entry_list []; replace_command_list []]
             ++ map add_entry lines)
       (cache_fields lines (passwordEntries st))).
Proof.
  intros Hty Hmenu Hstale Hdec Hotp Hlen.
  rewrite selection_made_opens by assumption.
  rewrite (open_entry_fields E f results lines w st st' Hdec Hotp Hlen).
  rewrite show_loop_plain.
  - cbn [world calls q passwordEntries]. now rewrite <- app_assoc.
  - cbn [passwordEntries]. apply Nat.eqb_neq. intros Hz.
    now apply map_size_empty_iff in Hz.
Qed.

(** X21: what was listed can be copied. On the cache an opened entry
    leaves, choosing a line other than the first by its label copies that
    line from after its first [": "] (the whole line when it has none),
    and choosing the mask copies the first line whole, if no other line is
    the mask; either way the cache is emptied and [close] follows. *)
Theorem listed_field_is_copied (E : Env) (f0 f1 : frame) (pw : string)
        (fields : list string) (st : state E) :
  SelectionType_eqb (ftype f1) sel_none = false ->
  passwordEntries st = cache_fields fields {["********" := pw]} ->
  (fvalue f1 ∈ fields ->
   selection_made E [f0; f1] st
   = (Ret tt,
      mkState (world st) (calls st)
        (q st ++ [copy_to_clipboard (field_text (fvalue f1) (fvalue f1)); close]) ∅))
  /\ (fvalue f1 = "********" -> "********" ∉ fields ->
      selection_made E [f0; f1] st
      = (Ret tt,
         mkState (world st) (calls st) (q st ++ [copy_to_clipboard pw; close]) ∅)).
Proof.
  intros Hty Hcache. split.
  - intros Hin. apply field_copy_run; [assumption|].
    rewrite Hcache. now apply cache_fields_lookup.
  - intros Hmask Hout.
    rewrite (field_copy_run E f0 f1 pw st Hty).
    + unfold field_text. now rewrite Hmask.
    + rewrite Hcache, Hmask, (proj2 (cache_fields_lookup _ _ _) Hout).
      apply lookup_singleton_eq.
Qed.

Lemma open_entry_masks_first_line_witness :
  menu_option mem_env mail_frame = false
  /\ selection_made mem_env [mail_frame] (mem_state two_line_store)
     = (Ret tt,
        mkState (E := mem_env) two_line_store
          [get_decrypted_password_call (VStr "mail")]
          [replace_entry_list []; replace_command_list [];
           add_entry "********"; add_entry "url: https://x"]
          (cache_fields ["url: https://x"] {["********" := "pw"]})).
Proof.
  split; [reflexivity|].
  exact (proj1 (open_entry_masks_first_line mem_env mail_frame
                  ("pw" +:+ String "010" "url: https://x") "pw" "url: https://x" []
                  two_line_store (mem_state two_line_store)
                  (opened mem_env mail_frame two_line_store (mem_state two_line_store))
                  eq_refl eq_refl eq_refl eq_refl eq_refl)).
Defined.

Lemma open_entry_on_stale_cache_witness :
  passwordEntries stale_state <> ∅
  /\ selection_made mem_env [mail_frame] stale_state
     = (Ret tt,
        mkState (E := mem_env) two_line_store
          [get_decrypted_password_call (VStr "mail")]
          [replace_entry_list []; replace_command_list [];
           add_entry "pw"; add_entry "url: https://x"]
          (cache_fields ["pw"; "url: https://x"] {["old" := "old"]})).
Proof.
  assert (Hstale : passwordEntries stale_state <> ∅)
    by apply insert_non_empty.
  split; [exact Hstale|].
  exact (open_entry_on_stale_cache mem_env mail_frame
           ("pw" +:+ String "010" "url: https://x") ["pw"; "url: https://x"]
           two_line_store stale_state
           (opened mem_env mail_frame two_line_store stale_state)
           eq_refl eq_refl Hstale eq_refl eq_refl ltac:(cbn; lia)).
Defined.

Lemma listed_field_is_copied_witness :
  fvalue url_frame ∈ ["url: https://x"]
  /\ selection_made mem_env [mail_frame; url_frame] fields_state
     = (Ret tt,
        mkState (E := mem_env) two_line_store []
          [copy_to_clipboard "https://x"; close] ∅).
Proof.
  assert (Hin : fvalue url_frame ∈ ["url: https://x"]) by constructor.
  split; [exact Hin|].
  etransitivity;
    [exact (proj1 (listed_field_is_copied mem_env mail_frame url_frame "pw"
                     ["url: https://x"] fields_state eq_refl eq_refl) Hin)
    | reflexivity].
Defined.
